(** * NSW housing affordability map: the affordability calculation engine

    A shallow embedding of the numeric core of [map_app.js]
    (class [HousingAffordabilityMap]): inflation adjustment, the two income-tax
    conversions, the mortgage calculator, the per-postcode recompute pass and
    the colour classifier, followed by the properties established for them.

    ** Arithmetic model

    A JavaScript number is modelled by [num]: an exact rational, [+Infinity],
    [-Infinity] or [NaN].  The operators follow ECMAScript on that domain
    (division by zero, [Infinity - Infinity], comparisons with [NaN], ...).
    Two things of IEEE-754 binary64 are not represented: rounding and overflow
    (every finite result is the exact rational, decimal literals such as
    [0.16] are the exact decimal), and the sign of zero ([-0] is [0]; a zero
    divisor behaves as [+0]).  The statements quantified over all inputs are
    established in this exact arithmetic.

    Module [Binary64] embeds the two tax conversions a second time, over the
    binary64 numbers of the language themselves, where every closed
    evaluation is bit for bit what the program computes; it is used to
    evaluate them at given inputs, among them those where rounding or
    overflow shows. *)

From Stdlib Require Import QArith Qround Qabs Qpower Qcanon Lqa Lia ZArith Bool.
From Stdlib Require Import Floats.
From stdpp Require Import gmap strings fin_maps pretty.

Set Warnings "-inexact-float".

Local Open Scope Q_scope.

(* ===================================================================== *)
(** * Numbers *)
(* ===================================================================== *)

Inductive num : Type :=
| Fin (q : Q)
| PInf
| NInf
| NaN.

Definition Qlt_bool (a b : Q) : bool := negb (Qle_bool b a).

Module Num.

Definition neg (x : num) : num :=
  match x with
  | Fin q => Fin (- q)
  | PInf => NInf
  | NInf => PInf
  | NaN => NaN
  end.

Definition add (x y : num) : num :=
  match x, y with
  | NaN, _ | _, NaN => NaN
  | Fin a, Fin b => Fin (a + b)
  | PInf, NInf | NInf, PInf => NaN
  | PInf, _ | _, PInf => PInf
  | NInf, _ | _, NInf => NInf
  end.

Definition sub (x y : num) : num := add x (neg y).

(** An infinity with the sign of the finite rational [q]; [NaN] at zero. *)
Definition inf_signed (positive : bool) (q : Q) : num :=
  match q ?= 0 with
  | Eq => NaN
  | Gt => if positive then PInf else NInf
  | Lt => if positive then NInf else PInf
  end.

Definition mul (x y : num) : num :=
  match x, y with
  | NaN, _ | _, NaN => NaN
  | Fin a, Fin b => Fin (a * b)
  | PInf, Fin q | Fin q, PInf => inf_signed true q
  | NInf, Fin q | Fin q, NInf => inf_signed false q
  | PInf, PInf | NInf, NInf => PInf
  | PInf, NInf | NInf, PInf => NInf
  end.

(** [x / y].  A finite non-zero dividend over zero gives the infinity of the
    dividend's sign, [0 / 0] is [NaN], anything finite over an infinity is 0. *)
Definition div (x y : num) : num :=
  match x, y with
  | NaN, _ | _, NaN => NaN
  | Fin a, Fin b =>
      if Qeq_bool b 0 then inf_signed true a else Fin (a / b)
  | Fin _, (PInf | NInf) => Fin 0
  | PInf, Fin b => if Qlt_bool b 0 then NInf else PInf
  | NInf, Fin b => if Qlt_bool b 0 then PInf else NInf
  | (PInf | NInf), (PInf | NInf) => NaN
  end.

(** [x < y], [x <= y], [x > y], [x >= y]: false as soon as one side is [NaN]. *)
Definition ltb (x y : num) : bool :=
  match x, y with
  | NaN, _ | _, NaN => false
  | Fin a, Fin b => Qlt_bool a b
  | _, NInf => false
  | NInf, _ => true
  | PInf, _ => false
  | _, PInf => true
  end.

Definition leb (x y : num) : bool :=
  match x, y with
  | NaN, _ | _, NaN => false
  | Fin a, Fin b => Qle_bool a b
  | NInf, _ => true
  | _, PInf => true
  | _, NInf => false
  | PInf, _ => false
  end.

Definition gtb (x y : num) : bool := ltb y x.
Definition geb (x y : num) : bool := leb y x.

(** [x === y] on numbers. *)
Definition eqb (x y : num) : bool :=
  match x, y with
  | Fin a, Fin b => Qeq_bool a b
  | PInf, PInf | NInf, NInf => true
  | _, _ => false
  end.

(** [Number.isFinite], [isNaN]. *)
Definition isFinite (x : num) : bool :=
  match x with Fin _ => true | _ => false end.

Definition isNaN (x : num) : bool :=
  match x with NaN => true | _ => false end.

(** Truthiness of a number: [0] and [NaN] are falsy. *)
Definition truthy (x : num) : bool :=
  match x with
  | Fin q => negb (Qeq_bool q 0)
  | PInf | NInf => true
  | NaN => false
  end.

(** [x || d] where [x] is a number. *)
Definition or_else (x d : num) : num := if truthy x then x else d.

(** [Math.min], [Math.max] of two numbers. *)
Definition min (x y : num) : num :=
  match x, y with
  | NaN, _ | _, NaN => NaN
  | _, _ => if leb x y then x else y
  end.

Definition max (x y : num) : num :=
  match x, y with
  | NaN, _ | _, NaN => NaN
  | _, _ => if leb x y then y else x
  end.

(** [Math.round]: the nearest integer, halves towards [+Infinity]. *)
Definition round (x : num) : num :=
  match x with
  | Fin q => Fin (inject_Z (Qfloor (q + (1 # 2))))
  | _ => x
  end.

(** The order as propositions ([NaN] is related to nothing). *)
Definition lt (x y : num) : Prop := ltb x y = true.
Definition le (x y : num) : Prop := leb x y = true.

(** The same number, possibly written as another fraction. *)
Definition eq (x y : num) : Prop :=
  match x, y with
  | Fin a, Fin b => a == b
  | PInf, PInf | NInf, NInf | NaN, NaN => True
  | _, _ => False
  end.

End Num.

Declare Scope num_scope.
Delimit Scope num_scope with num.
Bind Scope num_scope with num.
Infix "+" := Num.add : num_scope.
Infix "-" := Num.sub : num_scope.
Infix "*" := Num.mul : num_scope.
Infix "/" := Num.div : num_scope.
Infix "<?" := Num.ltb (at level 70) : num_scope.
Infix "<=?" := Num.leb (at level 70) : num_scope.
Infix ">?" := Num.gtb (at level 70) : num_scope.
Infix ">=?" := Num.geb (at level 70) : num_scope.
Infix "===" := Num.eqb (at level 70) : num_scope.
Infix "≈" := Num.eq (at level 70) : num_scope.

Coercion Fin : Q >-> num.

(* ===================================================================== *)
(** * Exceptions *)
(* ===================================================================== *)

Inductive exn : Type :=
| TypeError (message : string).

Inductive result (A : Type) : Type :=
| Ok (a : A)
| Throw (e : exn).

Arguments Ok {A} a.
Arguments Throw {A} e.

Definition bind {A B : Type} (m : result A) (k : A -> result B) : result B :=
  match m with
  | Ok a => k a
  | Throw e => Throw e
  end.

Notation "'let!' x ':=' m 'in' k" := (bind m (fun x => k))
  (at level 10, x name, m at level 100, k at level 200).

Definition completes {A : Type} (m : result A) : Prop :=
  match m with Ok _ => True | Throw _ => False end.

(* ===================================================================== *)
(** * InflationAdjuster *)
(* ===================================================================== *)

Local Open Scope num_scope.

(** [const INFLATION_RATES]: year -> percentage. *)
Definition INFLATION_RATES : gmap Z num :=
  {[ 2020%Z := Fin 0.9; 2021%Z := Fin 2.9; 2022%Z := Fin 6.6;
     2023%Z := Fin 5.6; 2024%Z := Fin 3.16; 2025%Z := Fin 2.10 ]}.

(** One turn of the loop body of [_adjustForInflation]:
    [if (inflationRates[year]) adjustedValue *= (1 + inflationRates[year] / 100)]. *)
Definition adjust_step (inflationRates : gmap Z num) (year : Z)
    (adjustedValue : num) : num :=
  match inflationRates !! year with
  | Some rate =>
      if Num.truthy rate then adjustedValue * (Fin 1 + rate / Fin 100)
      else adjustedValue
  | None => adjustedValue
  end.

(** [for (let year = ...; year <= targetYear; year++)], with [turns] the
    number of turns left. *)
Fixpoint adjust_loop (inflationRates : gmap Z num) (turns : nat) (year : Z)
    (adjustedValue : num) : num :=
  match turns with
  | O => adjustedValue
  | S turns' =>
      adjust_loop inflationRates turns' (year + 1)%Z
        (adjust_step inflationRates year adjustedValue)
  end.

(** The loop starts at [baseYear + 1] and runs while [year <= targetYear]:
    [targetYear - baseYear] turns, none when that is not positive. *)
Definition _adjustForInflation (baseValue : num) (baseYear targetYear : Z)
    (inflationRates : gmap Z num) : num :=
  let adjustedValue :=
    adjust_loop inflationRates (Z.to_nat (targetYear - baseYear))
      (baseYear + 1)%Z baseValue in
  Num.round adjustedValue.

(* ===================================================================== *)
(** * TaxConverter *)
(* ===================================================================== *)

(** An entry of the [BRACKETS] table of [_calculateNetIncome]. *)
Record Bracket : Type := mkBracket {
  lower : num;
  upper : num;
  r : num
}.

(** An entry of the [BRACKETS] table of [_convertNetToGross]: the same with
    [Cprev], the tax owed on an income equal to [lower]. *)
Record BracketC : Type := mkBracketC {
  bracket :> Bracket;
  Cprev : num
}.

Module NetToGross.
Definition BRACKETS : list BracketC :=
  [ mkBracketC (mkBracket (Fin 0)      (Fin 18200)  (Fin 0.00)) (Fin 0);
    mkBracketC (mkBracket (Fin 18200)  (Fin 45000)  (Fin 0.16)) (Fin 0);
    mkBracketC (mkBracket (Fin 45000)  (Fin 135000) (Fin 0.30)) (Fin 4288);
    mkBracketC (mkBracket (Fin 135000) (Fin 190000) (Fin 0.37)) (Fin 31288);
    mkBracketC (mkBracket (Fin 190000) PInf         (Fin 0.45)) (Fin 51638) ].
End NetToGross.

Module GrossToNet.
Definition BRACKETS : list Bracket :=
  [ mkBracket (Fin 0)      (Fin 18200)  (Fin 0.00);
    mkBracket (Fin 18200)  (Fin 45000)  (Fin 0.16);
    mkBracket (Fin 45000)  (Fin 135000) (Fin 0.30);
    mkBracket (Fin 135000) (Fin 190000) (Fin 0.37);
    mkBracket (Fin 190000) PInf         (Fin 0.45) ].
End GrossToNet.

(** [(netIncome + Cprev - r * lower) / (1 - r)] *)
Definition candidate (netIncome : num) (b : BracketC) : num :=
  (netIncome + Cprev b - r b * lower b) / (Fin 1 - r b).

(** The bracket search of [_convertNetToGross]: [bs] are the entries from
    index [i] on, [len] is [BRACKETS.length].  [None] when the loop ends
    without a [return]. *)
Fixpoint search (len : nat) (netIncome : num) (i : nat) (bs : list BracketC)
    : option num :=
  match bs with
  | [] => None
  | b :: rest =>
      let denom := Fin 1 - r b in
      if denom <=? Fin 0 then search len netIncome (S i) rest
      else
        let candidateGross := (netIncome + Cprev b - r b * lower b) / denom in
        let inRange :=
          (candidateGross >=? lower b) &&
          (if Nat.eqb i (len - 1) then candidateGross >=? lower b
           else candidateGross <? upper b) in
        if inRange then Some candidateGross
        else search len netIncome (S i) rest
  end.

Definition _convertNetToGross (netIncome : num) : result num :=
  if negb (Num.isFinite netIncome) then
    Throw (TypeError "netIncome must be a finite number")
  else if netIncome <? Fin 0 then Ok (Fin 0)
  else
    let BRACKETS := NetToGross.BRACKETS in
    match BRACKETS with
    | [] => Throw (TypeError "BRACKETS[0] is undefined")
    | b0 :: from1 =>
        if netIncome <=? upper b0 then Ok netIncome
        else
          match search (length BRACKETS) netIncome 1 from1 with
          | Some candidateGross => Ok candidateGross
          | None =>
              match last BRACKETS with
              | Some b => Ok (candidate netIncome b)
              | None => Throw (TypeError "BRACKETS[BRACKETS.length - 1] is undefined")
              end
          end
    end.

(** The loop of [_calculateNetIncome]: the tax accumulated over [bs]. *)
Fixpoint accumulate (grossIncome tax : num) (bs : list Bracket) : num :=
  match bs with
  | [] => tax
  | b :: rest =>
      if grossIncome >? lower b then
        let taxable := Num.min grossIncome (upper b) - lower b in
        accumulate grossIncome (tax + taxable * r b) rest
      else accumulate grossIncome tax rest
  end.

Definition _calculateNetIncome (grossIncome : num) : result num :=
  if negb (Num.isFinite grossIncome) then
    Throw (TypeError "grossIncome must be a finite number")
  else if grossIncome <? Fin 0 then Ok (Fin 0)
  else
    let tax := accumulate grossIncome (Fin 0) GrossToNet.BRACKETS in
    Ok (grossIncome - tax).

(* ===================================================================== *)
(** * TaxConverter over binary64 *)
(* ===================================================================== *)

Module Binary64.

Local Open Scope float_scope.

Record Bracket : Type := mkBracket {
  lower : float;
  upper : float;
  r : float;
  Cprev : float
}.

(** [BRACKETS] of [_convertNetToGross]; a decimal literal denotes the nearest
    binary64 number, as it does in the program. *)
Definition BRACKETS : list Bracket :=
  [ mkBracket 0      18200    0.00 0;
    mkBracket 18200  45000    0.16 0;
    mkBracket 45000  135000   0.30 4288;
    mkBracket 135000 190000   0.37 31288;
    mkBracket 190000 infinity 0.45 51638 ].

Definition candidate (netIncome : float) (b : Bracket) : float :=
  (netIncome + Cprev b - r b * lower b) / (1 - r b).

Fixpoint search (len : nat) (netIncome : float) (i : nat) (bs : list Bracket)
    : option float :=
  match bs with
  | [] => None
  | b :: rest =>
      let denom := 1 - r b in
      if denom <=? 0 then search len netIncome (S i) rest
      else
        let candidateGross := (netIncome + Cprev b - r b * lower b) / denom in
        let inRange :=
          (lower b <=? candidateGross) &&
          (if Nat.eqb i (len - 1) then lower b <=? candidateGross
           else candidateGross <? upper b) in
        if inRange then Some candidateGross
        else search len netIncome (S i) rest
  end.

Definition _convertNetToGross (netIncome : float) : result float :=
  if negb (is_finite netIncome) then
    Throw (TypeError "netIncome must be a finite number")
  else if netIncome <? 0 then Ok 0
  else
    match BRACKETS with
    | [] => Throw (TypeError "BRACKETS[0] is undefined")
    | b0 :: from1 =>
        if netIncome <=? upper b0 then Ok netIncome
        else
          match search (length BRACKETS) netIncome 1 from1 with
          | Some candidateGross => Ok candidateGross
          | None =>
              match last BRACKETS with
              | Some b => Ok (candidate netIncome b)
              | None =>
                  Throw (TypeError "BRACKETS[BRACKETS.length - 1] is undefined")
              end
          end
    end.

(** [Math.min] of two numbers ([-0] is less than [+0]). *)
Definition Math_min (x y : float) : float :=
  if is_nan x || is_nan y then nan
  else if x <? y then x
  else if y <? x then y
  else if 1 / x <? 0 then x
  else y.

(** The table of [_calculateNetIncome] is the one above without [Cprev]. *)
Fixpoint accumulate (grossIncome tax : float) (bs : list Bracket) : float :=
  match bs with
  | [] => tax
  | b :: rest =>
      if lower b <? grossIncome then
        let taxable := Math_min grossIncome (upper b) - lower b in
        accumulate grossIncome (tax + taxable * r b) rest
      else accumulate grossIncome tax rest
  end.

Definition _calculateNetIncome (grossIncome : float) : result float :=
  if negb (is_finite grossIncome) then
    Throw (TypeError "grossIncome must be a finite number")
  else if grossIncome <? 0 then Ok 0
  else
    let tax := accumulate grossIncome 0 BRACKETS in
    Ok (grossIncome - tax).

(** [|x - y| <= 1e-6 * y] *)
Definition within_tolerance (x y : float) : bool :=
  abs (x - y) <=? 0.000001 * y.

(** The round trip on one gross income, and whether it stays in tolerance. *)
Definition round_trip_ok (gross : float) : bool :=
  match _calculateNetIncome gross with
  | Ok net =>
      match _convertNetToGross net with
      | Ok g => within_tolerance g gross
      | Throw _ => false
      end
  | Throw _ => false
  end.

(** The [n] binary64 numbers from [x] upwards, and downwards. *)
Fixpoint upwards (n : nat) (x : float) : list float :=
  match n with
  | O => []
  | S n' => x :: upwards n' (next_up x)
  end.

Fixpoint downwards (n : nat) (x : float) : list float :=
  match n with
  | O => []
  | S n' => x :: downwards n' (next_down x)
  end.

(** The largest finite number, [Number.MAX_VALUE]. *)
Definition MAX_VALUE : float := 0x1.fffffffffffffp+1023.

End Binary64.

(* ===================================================================== *)
(** * MortgageCalculator *)
(* ===================================================================== *)

Record Mortgage : Type := mkMortgage {
  payment : num;
  interest : num
}.

Definition is_integer (q : Q) : bool := Pos.eqb (Qden (Qred q)) 1.
Definition to_integer (q : Q) : Z := Qnum (Qred q).

Section Engine.

(** [Math.pow] of a positive base at an exponent that is not an integer is
    in general irrational; its value there is left open. *)
Variable pow_frac : Q -> Q -> num.

(** [Math.pow(base, exponent)], by the cases of ECMAScript's
    [Number::exponentiate]. *)
Definition Math_pow (base exponent : num) : num :=
  match exponent with
  | NaN => NaN
  | Fin e =>
      if Qeq_bool e 0 then Fin 1
      else
        match base with
        | NaN => NaN
        | PInf => if Qlt_bool 0 e then PInf else Fin 0
        | NInf =>
            if Qlt_bool 0 e then
              if is_integer e && Z.odd (to_integer e) then NInf else PInf
            else Fin 0
        | Fin b =>
            if Qeq_bool b 0 then (if Qlt_bool 0 e then Fin 0 else PInf)
            else if is_integer e then Fin (Qpower b (to_integer e))
            else if Qlt_bool b 0 then NaN
            else pow_frac b e
        end
  | PInf =>
      match base with
      | NaN => NaN
      | PInf | NInf => PInf
      | Fin b =>
          match Qabs b ?= 1 with
          | Gt => PInf
          | Eq => NaN
          | Lt => Fin 0
          end
      end
  | NInf =>
      match base with
      | NaN => NaN
      | PInf | NInf => Fin 0
      | Fin b =>
          match Qabs b ?= 1 with
          | Gt => Fin 0
          | Eq => NaN
          | Lt => PInf
          end
      end
  end.

Definition _calculateMortgage (loanAmount annualRate termYears : num)
    (type : string) : Mortgage :=
  if loanAmount <=? Fin 0 then mkMortgage (Fin 0) (Fin 0)
  else
    let numPayments := termYears * Fin 12 in
    if annualRate === Fin 0 then
      mkMortgage (loanAmount / numPayments) (Fin 0)
    else
      let monthlyRate := (annualRate / Fin 100) / Fin 12 in
      let monthlyInterest := loanAmount * monthlyRate in
      if String.eqb type "IO" then mkMortgage monthlyInterest monthlyInterest
      else
        let factor := Math_pow (Fin 1 + monthlyRate) numPayments in
        let principalAndInterestPayment :=
          monthlyInterest * factor / (factor - Fin 1) in
        mkMortgage principalAndInterestPayment monthlyInterest.

(* ===================================================================== *)
(** * AffordabilityEngine *)
(* ===================================================================== *)

(** The form controls the engine reads.  A numeric control holds what
    [parseFloat(document.getElementById(id).value)] returns: [NaN] for a text
    that does not start with a number, an infinity for the text "Infinity". *)
Record Dom : Type := mkDom {
  annualIncome : num;
  utilities : num;
  food : num;
  transport : num;
  other : num;
  strata : num;
  council : num;
  water : num;
  maintenance : num;
  depositPercent : num;
  depositAmount : num;
  interestRate : num;
  loanTerm : num;
  pricePoint : string
}.

(** A row of [this.housingData].  The first six fields are the columns of the
    data file ([None]: the cell is [null]); the others are written by the
    engine ([None]: [null], or not written yet). *)
Record PostcodeRecord : Type := mkRecord {
  yearly_median_weekly_rent : option num;
  yearly_first_quartile_weekly_rent : option num;
  yearly_third_quartile_weekly_rent : option num;
  yearly_median_sales_price_000s : option num;
  yearly_first_quartile_sales_000s : option num;
  yearly_third_quartile_sales_000s : option num;
  weekly_housing_cost : option num;
  affordability_percentage : option num;
  is_affordable : option bool;
  weekly_money_leftover : option num;
  calculated_weekly_payment : option num;
  calculated_weekly_interest : option num;
  yearly_first_quartile_weekly_rent_payment : option num;
  yearly_third_quartile_weekly_rent_payment : option num;
  yearly_first_quartile_weekly_payment : option num;
  yearly_third_quartile_weekly_payment : option num
}.

(** The fields of the application object that the engine uses. *)
Record App : Type := mkApp {
  housingData : gmap string PostcodeRecord;
  housingType : string;
  depositType : string;
  mortgageType : string
}.

Record UserSettings : Type := mkUserSettings {
  grossIncome : num;
  netIncome : num;
  weeklyNetIncome : num;
  weeklyGrossIncome : num;
  weeklyLivingCosts : num;
  weeklyOwnerCosts : num
}.

Definition _getUserSettings (dom : Dom) : result UserSettings :=
  let householdNetIncome := Num.or_else (annualIncome dom) (Fin 0) in
  let! householdGrossIncome := _convertNetToGross householdNetIncome in
  let weeklyNetIncome := householdNetIncome / Fin 52 in
  let weeklyGrossIncome := householdGrossIncome / Fin 52 in
  let utilities := Num.or_else (utilities dom) (Fin 0) in
  let food := Num.or_else (food dom) (Fin 0) in
  let transport := Num.or_else (transport dom) (Fin 0) in
  let other := Num.or_else (other dom) (Fin 0) in
  let weeklyLivingCosts := utilities + food + transport + other in
  let strata := Num.or_else (strata dom) (Fin 0) in
  let council := Num.or_else (council dom) (Fin 0) in
  let water := Num.or_else (water dom) (Fin 0) in
  let maintenance := Num.or_else (maintenance dom) (Fin 0) in
  let weeklyOwnerCosts := strata + council + water + maintenance in
  Ok (mkUserSettings householdGrossIncome householdNetIncome weeklyNetIncome
        weeklyGrossIncome weeklyLivingCosts weeklyOwnerCosts).

(** [(cell || 0) * 1000] *)
Definition thousands (cell : option num) : num :=
  match cell with
  | Some n => Num.or_else n (Fin 0) * Fin 1000
  | None => Fin 0 * Fin 1000
  end.

(** The mortgage on a sales price, as the engine sets it up in three places:
    deposit by [this.depositType], loan [Math.max(0, price - deposit)]. *)
Definition mortgage_for (dom : Dom) (this : App) (price : num) : Mortgage :=
  let depositPercent := Num.or_else (depositPercent dom) (Fin 20) in
  let depositAmount := Num.or_else (depositAmount dom) (Fin 0) in
  let interestRate := Num.or_else (interestRate dom) (Fin 6.5) in
  let loanTermYears := Num.or_else (loanTerm dom) (Fin 30) in
  let actualDeposit :=
    if String.eqb (depositType this) "percent"
    then price * (depositPercent / Fin 100)
    else depositAmount in
  let loanAmount := Num.max (Fin 0) (price - actualDeposit) in
  _calculateMortgage loanAmount interestRate loanTermYears (mortgageType this).

Definition _calculateQuartilePayments (dom : Dom) (this : App)
    (data : PostcodeRecord) (userSettings : UserSettings) : PostcodeRecord :=
  let q1Sales := thousands (yearly_first_quartile_sales_000s data) in
  let q3Sales := thousands (yearly_third_quartile_sales_000s data) in
  let q1_payment :=
    if q1Sales >? Fin 0 then
      let q1Mortgage := mortgage_for dom this q1Sales in
      Some (payment q1Mortgage * Fin 12 / Fin 52 + weeklyOwnerCosts userSettings)
    else None in
  let q3_payment :=
    if q3Sales >? Fin 0 then
      let q3Mortgage := mortgage_for dom this q3Sales in
      Some (payment q3Mortgage * Fin 12 / Fin 52 + weeklyOwnerCosts userSettings)
    else None in
  mkRecord
    (yearly_median_weekly_rent data)
    (yearly_first_quartile_weekly_rent data)
    (yearly_third_quartile_weekly_rent data)
    (yearly_median_sales_price_000s data)
    (yearly_first_quartile_sales_000s data)
    (yearly_third_quartile_sales_000s data)
    (weekly_housing_cost data)
    (affordability_percentage data)
    (is_affordable data)
    (weekly_money_leftover data)
    (calculated_weekly_payment data)
    (calculated_weekly_interest data)
    (yearly_first_quartile_weekly_rent data)
    (yearly_third_quartile_weekly_rent data)
    q1_payment
    q3_payment.

(** [cell && cell > 0]: the cell when the condition holds. *)
Definition positive_cell (cell : option num) : option num :=
  match cell with
  | Some n => if Num.truthy n && (n >? Fin 0) then Some n else None
  | None => None
  end.

(** What one turn of the loop of [_updateAllAffordability] has in its local
    variables when it reaches the assignments to [data]; [written] holds the
    two values assigned to [data.calculated_weekly_payment] and
    [data.calculated_weekly_interest] in the buy branch, [None] when that
    branch is not taken. *)
Record Housing : Type := mkHousing {
  weeklyHousingCost : num;
  affordabilityPercentage : num;
  written : option (num * num)
}.

Definition housing_of (dom : Dom) (this : App) (userSettings : UserSettings)
    (data : PostcodeRecord) : Housing :=
  let weeklyGrossIncome := weeklyGrossIncome userSettings in
  let pricePoint := pricePoint dom in
  let salesPrice :=
    if String.eqb pricePoint "q1"
    then thousands (yearly_first_quartile_sales_000s data)
    else if String.eqb pricePoint "q3"
    then thousands (yearly_third_quartile_sales_000s data)
    else thousands (yearly_median_sales_price_000s data) in
  let rent :=
    if String.eqb pricePoint "q1" then yearly_first_quartile_weekly_rent data
    else if String.eqb pricePoint "q3" then yearly_third_quartile_weekly_rent data
    else yearly_median_weekly_rent data in
  match
    (if String.eqb (housingType this) "rent" then positive_cell rent else None)
  with
  | Some rent =>
      let weeklyHousingCost := rent in
      mkHousing weeklyHousingCost
        ((weeklyHousingCost / weeklyGrossIncome) * Fin 100) None
  | None =>
      if String.eqb (housingType this) "buy" && Num.truthy salesPrice
         && (salesPrice >? Fin 0)
      then
        let mortgage := mortgage_for dom this salesPrice in
        let weeklyMortgagePayment := payment mortgage * Fin 12 / Fin 52 in
        let weeklyHousingCost :=
          weeklyMortgagePayment + weeklyOwnerCosts userSettings in
        mkHousing weeklyHousingCost
          ((weeklyHousingCost / weeklyGrossIncome) * Fin 100)
          (Some (weeklyMortgagePayment, interest mortgage * Fin 12 / Fin 52))
      else mkHousing (Fin 0) (Fin 0) None
  end.

(** The body of the loop of [_updateAllAffordability] on one row. *)
Definition update_record (dom : Dom) (this : App) (userSettings : UserSettings)
    (data : PostcodeRecord) : PostcodeRecord :=
  let h := housing_of dom this userSettings data in
  let weeklyAfterExpenses :=
    weeklyNetIncome userSettings - weeklyLivingCosts userSettings in
  let data' :=
    mkRecord
      (yearly_median_weekly_rent data)
      (yearly_first_quartile_weekly_rent data)
      (yearly_third_quartile_weekly_rent data)
      (yearly_median_sales_price_000s data)
      (yearly_first_quartile_sales_000s data)
      (yearly_third_quartile_sales_000s data)
      (Some (weeklyHousingCost h))
      (Some (affordabilityPercentage h))
      (Some (affordabilityPercentage h <=? Fin 30))
      (if weeklyHousingCost h >? Fin 0
       then Some (weeklyAfterExpenses - weeklyHousingCost h)
       else None)
      (match written h with
       | Some w => Some (fst w)
       | None => calculated_weekly_payment data
       end)
      (match written h with
       | Some w => Some (snd w)
       | None => calculated_weekly_interest data
       end)
      (yearly_first_quartile_weekly_rent_payment data)
      (yearly_third_quartile_weekly_rent_payment data)
      (yearly_first_quartile_weekly_payment data)
      (yearly_third_quartile_weekly_payment data) in
  _calculateQuartilePayments dom this data' userSettings.

(** [for (const postcode in this.housingData)]: every row is updated in
    place; a throw of [_getUserSettings] happens before the first row. *)
Definition _updateAllAffordability (dom : Dom) (this : App) : result App :=
  let! userSettings := _getUserSettings dom in
  Ok (mkApp (update_record dom this userSettings <$> housingData this)
        (housingType this) (depositType this) (mortgageType this)).

(** [_handleHousingTypeChange(type)]: stores the housing type, then recomputes
    through [updateMapAndTable] (the toggling of the panels is display only). *)
Definition _handleHousingTypeChange (dom : Dom) (type : string) (this : App)
    : result App :=
  _updateAllAffordability dom
    (mkApp (housingData this) type (depositType this) (mortgageType this)).

End Engine.

(* ===================================================================== *)
(** * ColorClassifier *)
(* ===================================================================== *)

(** [_getColor(percentage, weeklyMoneyLeftover)]; [None] is [null]. *)
Definition _getColor (percentage weeklyMoneyLeftover : option num) : string :=
  if match weeklyMoneyLeftover with
     | Some leftover => leftover <? Fin 0
     | None => false
     end
  then "#000000"
  else
    match percentage with
    | None => "#ccc"
    | Some p =>
        if Num.isNaN p || (p === Fin 0) then "#ccc"
        else if p <=? Fin 20 then "#16a34a"
        else if p <=? Fin 30 then "#22c55e"
        else if p <=? Fin 40 then "#fbbf24"
        else if p <=? Fin 50 then "#f97316"
        else "#ef4444"
    end.

(** The fill colour [_styleFeature] gives to the feature of a postcode. *)
Definition fillColor (this : App) (postcode : string) : string :=
  match housingData this !! postcode with
  | Some data =>
      _getColor (affordability_percentage data) (weekly_money_leftover data)
  | None => _getColor None None
  end.

(** The buckets of the classifier and the colour that stands for each: black
    is the legend's "Negative leftover", [#ccc] its "No Data", the five others
    are named in the comments of [_getColor]. *)
Inductive Bucket : Type :=
| Critical
| NoData
| VeryAffordable
| Affordable
| Moderate
| High
| Severe.

Definition bucket_color (b : Bucket) : string :=
  match b with
  | Critical => "#000000"
  | NoData => "#ccc"
  | VeryAffordable => "#16a34a"
  | Affordable => "#22c55e"
  | Moderate => "#fbbf24"
  | High => "#f97316"
  | Severe => "#ef4444"
  end.

Definition negative_leftover (leftover : option num) : Prop :=
  exists l, leftover = Some l /\ Num.lt l (Fin 0).

Definition no_signal (percentage : option num) : Prop :=
  percentage = None \/ percentage = Some NaN \/
  exists q, percentage = Some (Fin q) /\ q == 0.

(** The classification as the specification words it, rule by rule in
    priority order: each rule applies when no earlier one does. *)
Inductive Classify : option num -> option num -> Bucket -> Prop :=
| classify_critical p l :
    negative_leftover l -> Classify p l Critical
| classify_nodata p l :
    ~ negative_leftover l -> no_signal p -> Classify p l NoData
| classify_very p l x :
    ~ negative_leftover l -> p = Some x -> ~ no_signal p ->
    Num.le x (Fin 20) -> Classify p l VeryAffordable
| classify_affordable p l x :
    ~ negative_leftover l -> p = Some x -> ~ no_signal p ->
    ~ Num.le x (Fin 20) -> Num.le x (Fin 30) -> Classify p l Affordable
| classify_moderate p l x :
    ~ negative_leftover l -> p = Some x -> ~ no_signal p ->
    ~ Num.le x (Fin 30) -> Num.le x (Fin 40) -> Classify p l Moderate
| classify_high p l x :
    ~ negative_leftover l -> p = Some x -> ~ no_signal p ->
    ~ Num.le x (Fin 40) -> Num.le x (Fin 50) -> Classify p l High
| classify_severe p l x :
    ~ negative_leftover l -> p = Some x -> ~ no_signal p ->
    ~ Num.le x (Fin 50) -> Classify p l Severe.

(* ===================================================================== *)
(** * Vocabulary of the statements; sample inputs *)
(* ===================================================================== *)

(** [Infinity] or [-Infinity]. *)
Definition infinite (x : num) : bool :=
  match x with PInf | NInf => true | _ => false end.

(** The columns of the data file in a row. *)
Definition raw_fields (d : PostcodeRecord) : list (option num) :=
  [ yearly_median_weekly_rent d; yearly_first_quartile_weekly_rent d;
    yearly_third_quartile_weekly_rent d; yearly_median_sales_price_000s d;
    yearly_first_quartile_sales_000s d; yearly_third_quartile_sales_000s d ].

(** The fields the engine assigns on every path of a pass. *)
Definition assigned_fields (d : PostcodeRecord)
    : list (option num) * option bool :=
  ([ weekly_housing_cost d; affordability_percentage d;
     weekly_money_leftover d;
     yearly_first_quartile_weekly_rent_payment d;
     yearly_third_quartile_weekly_rent_payment d;
     yearly_first_quartile_weekly_payment d;
     yearly_third_quartile_weekly_payment d ],
   is_affordable d).

(** The two fields assigned in the buy branch only. *)
Definition branch_fields (d : PostcodeRecord) : list (option num) :=
  [ calculated_weekly_payment d; calculated_weekly_interest d ].

(** The colour the map gives to a row. *)
Definition color_of (d : PostcodeRecord) : string :=
  _getColor (affordability_percentage d) (weekly_money_leftover d).

(** The row of a postcode after a pass. *)
Definition row_after (pass : result App) (postcode : string)
    : option PostcodeRecord :=
  match pass with
  | Ok this => housingData this !! postcode
  | Throw _ => None
  end.

(** The form with the living and owner costs of [DEFAULT_VALUES], a deposit
    of 20%, 6.5% over 30 years, the median price point. *)
Definition sample_dom (income : num) : Dom :=
  mkDom income (Fin 46) (Fin 92) (Fin 69) (Fin 0)
        (Fin 92) (Fin 46) (Fin 23) (Fin 69)
        (Fin 20) (Fin 100000) (Fin 6.5) (Fin 30) "median".

(** A row as loaded from the data file: median rent and median sales price
    (in thousands), nothing computed yet. *)
Definition sample_record (rent sales : option num) : PostcodeRecord :=
  mkRecord rent None None sales None None
           None None None None None None None None None None.

Definition sample_app (housingType mortgageType : string)
    (data : PostcodeRecord) : App :=
  mkApp {[ "2000"%string := data ]} housingType "percent" mortgageType.

(** A stand-in for [Math.pow] at fractional exponents in the sample runs,
    none of which reaches it. *)
Definition no_pow : Q -> Q -> num := fun _ _ => NaN.

(** A row with a median rent of 450 a week and a median sales price of
    800 thousand. *)
Definition sample_row : PostcodeRecord :=
  sample_record (Some (Fin 450)) (Some (Fin 800)).

(** What [_getUserSettings] returns on [sample_dom 61984]. *)
Definition sample_settings : UserSettings :=
  Eval vm_compute in
    match _getUserSettings (sample_dom (Fin 61984)) with
    | Ok userSettings => userSettings
    | Throw _ => mkUserSettings NaN NaN NaN NaN NaN NaN
    end.

(** [sample_row] after a pass in buy mode with an interest-only mortgage. *)
Definition visited_row : PostcodeRecord :=
  update_record no_pow (sample_dom (Fin 61984))
    (sample_app "buy" "IO" sample_row) sample_settings sample_row.

(** What [_getUserSettings] returns on [sample_dom 0]. *)
Definition zero_income_settings : UserSettings :=
  mkUserSettings (Fin 0) (Fin 0) (Fin 0 / Fin 52) (Fin 0 / Fin 52)
    (Fin 46 + Fin 92 + Fin 69 + Fin 0) (Fin 92 + Fin 46 + Fin 23 + Fin 69).

(* ===================================================================== *)
(** * Data loading, income panel and popup *)
(* ===================================================================== *)

(** A cell of a parsed data file (PapaParse with [dynamicTyping]): [null] for
    an empty cell, a number, a boolean or a text; [CUndefined] for a column
    the file does not have. *)
Inductive cell : Type :=
| CNull
| CUndefined
| CBool (b : bool)
| CNumber (n : num)
| CText (s : string).

(** A row of the aggregated data file: its [Postcode] cell and its other
    columns. *)
Record Item : Type := mkItem {
  Postcode : cell;
  columns : PostcodeRecord
}.

Section Loading.

(** [String(n)] on a number, the number-to-text conversion of the language. *)
Variable Number_toString : num -> string.

(** [String(item.Postcode)] *)
Definition String_of (c : cell) : string :=
  match c with
  | CNull => "null"
  | CUndefined => "undefined"
  | CBool true => "true"
  | CBool false => "false"
  | CNumber n => Number_toString n
  | CText s => s
  end.

(** [postcode && postcode !== 'null'] on a text: the empty text is falsy. *)
Definition usable_postcode (postcode : string) : bool :=
  negb (String.eqb postcode "") && negb (String.eqb postcode "null").

(** The body of [affordability.forEach(item => ...)] in [_loadData]. *)
Definition load_item (housingData : gmap string PostcodeRecord) (item : Item)
    : gmap string PostcodeRecord :=
  let postcode := String_of (Postcode item) in
  if usable_postcode postcode then <[ postcode := columns item ]> housingData
  else housingData.

(** The part of [_loadData] that fills [this.housingData] from the parsed
    rows, in their order. *)
Definition _loadData (affordability : list Item) (this : App) : App :=
  mkApp (fold_left load_item affordability (housingData this))
        (housingType this) (depositType this) (mortgageType this).

(** The rows of the file that load under a given postcode, in their order. *)
Definition rows_for (postcode : string) (affordability : list Item)
    : list Item :=
  filter (fun item => String_of (Postcode item) = postcode) affordability.

End Loading.



(** The cost figures [_createPopupContent] works out for a row, before they
    are formatted; [None] where the popup shows "N/A". *)
Record PopupFigures : Type := mkPopupFigures {
  popup_rent_cost : option num;
  popup_money_after_rent : option num;
  popup_mortgage_cost : option num;
  popup_owner_costs : option num;
  popup_total_buy_cost : option num;
  popup_money_after_buy : option num
}.

Definition _createPopupContent (pow_frac : Q -> Q -> num) (dom : Dom)
    (this : App) (data : PostcodeRecord) : result PopupFigures :=
  let! userSettings := _getUserSettings dom in
  let weeklyAfterExpenses :=
    weeklyNetIncome userSettings - weeklyLivingCosts userSettings in
  let pricePoint := pricePoint dom in
  let rentCost :=
    if String.eqb pricePoint "q1" then yearly_first_quartile_weekly_rent data
    else if String.eqb pricePoint "q3" then yearly_third_quartile_weekly_rent data
    else yearly_median_weekly_rent data in
  let rent_shown :=
    match rentCost with
    | Some rentCost => if rentCost >? Fin 0 then Some rentCost else None
    | None => None
    end in
  let ownerCosts := weeklyOwnerCosts userSettings in
  let salesPrice :=
    if String.eqb pricePoint "q1"
    then thousands (yearly_first_quartile_sales_000s data)
    else if String.eqb pricePoint "q3"
    then thousands (yearly_third_quartile_sales_000s data)
    else thousands (yearly_median_sales_price_000s data) in
  let mortgageCost :=
    if Num.truthy salesPrice && (salesPrice >? Fin 0)
    then payment (mortgage_for pow_frac dom this salesPrice) * Fin 12 / Fin 52
    else Fin 0 in
  let hasMortgageData := mortgageCost >? Fin 0 in
  let totalBuyCost := mortgageCost + ownerCosts in
  Ok (mkPopupFigures
        rent_shown
        (match rent_shown with
         | Some rentCost => Some (weeklyAfterExpenses - rentCost)
         | None => None
         end)
        (if hasMortgageData then Some mortgageCost else None)
        (if hasMortgageData then Some ownerCosts else None)
        (if hasMortgageData then Some totalBuyCost else None)
        (if hasMortgageData then Some (weeklyAfterExpenses - totalBuyCost)
         else None)).

(* ===================================================================== *)
(** * Vocabulary of further statements *)
(* ===================================================================== *)

(** The rate [_adjustForInflation] applies for a year: the entry of the
    series when there is one and it is truthy. *)
Definition effective_rate (inflationRates : gmap Z num) (year : Z)
    : option num :=
  match inflationRates !! year with
  | Some rate => if Num.truthy rate then Some rate else None
  | None => None
  end.


(** The place of a colour on the scale of the legend, from the best to the
    worst; 0 for "no data". *)
Definition severity (color : string) : nat :=
  if String.eqb color "#16a34a" then 1
  else if String.eqb color "#22c55e" then 2
  else if String.eqb color "#fbbf24" then 3
  else if String.eqb color "#f97316" then 4
  else if String.eqb color "#ef4444" then 5
  else if String.eqb color "#000000" then 6
  else 0.


(** The application object before any data is loaded. *)
Definition empty_app : App := mkApp ∅ "rent" "percent" "PI".

(** The inflation table without its projection for 2025 and with a zero
    entry for 2021. *)
Definition revised_rates : gmap Z num :=
  <[ 2021%Z := Fin 0 ]> (delete 2025%Z INFLATION_RATES).

(** Sample rows of a data file. *)
Definition sample_items : list Item :=
  [ mkItem (CNumber (Fin 2000)) (sample_record (Some (Fin 450)) None);
    mkItem CNull (sample_record (Some (Fin 300)) None);
    mkItem (CNumber (Fin 2000)) sample_row ].

(** A number-to-text conversion for the sample rows: the integer part in
    decimal digits. *)
Definition sample_toString (n : num) : string :=
  match n with
  | Fin q => pretty (Qfloor q)
  | PInf => "Infinity"
  | NInf => "-Infinity"
  | NaN => "NaN"
  end.

(* ===================================================================== *)
(** * Facts about numbers *)
(* ===================================================================== *)

Lemma Qlt_bool_iff (a b : Q) : Qlt_bool a b = true <-> a < b.
Proof.
  unfold Qlt_bool. rewrite negb_true_iff.
  destruct (Qle_bool b a) eqn:E.
  - apply Qle_bool_iff in E. split; [discriminate | intros H; lra].
  - split; [intros _ | reflexivity].
    apply Qnot_le_lt. intros H. apply Qle_bool_iff in H. congruence.
Qed.

Lemma Qlt_bool_false (a b : Q) : Qlt_bool a b = false <-> b <= a.
Proof.
  unfold Qlt_bool. rewrite negb_false_iff. apply Qle_bool_iff.
Qed.

Lemma Qle_bool_false (a b : Q) : Qle_bool a b = false <-> b < a.
Proof.
  rewrite <- Qlt_bool_iff. unfold Qlt_bool.
  destruct (Qle_bool a b); simpl; split; congruence.
Qed.

Lemma Qeq_bool_false (a b : Q) : Qeq_bool a b = false <-> ~ a == b.
Proof.
  split; [apply Qeq_bool_neq |].
  intros H. destruct (Qeq_bool a b) eqn:E; [| reflexivity].
  apply Qeq_bool_iff in E. contradiction.
Qed.

(** Turn the boolean facts on rationals in the context into propositions. *)
Ltac qprops :=
  repeat match goal with
  | H : Qle_bool _ _ = true |- _ => apply Qle_bool_iff in H
  | H : Qle_bool _ _ = false |- _ => apply Qle_bool_false in H
  | H : Qlt_bool _ _ = true |- _ => apply Qlt_bool_iff in H
  | H : Qlt_bool _ _ = false |- _ => apply Qlt_bool_false in H
  | H : Qeq_bool _ _ = true |- _ => apply Qeq_bool_iff in H
  | H : Qeq_bool _ _ = false |- _ => apply Qeq_bool_false in H
  end.

(** Evaluate the engine's functions without opening rational arithmetic. *)
Ltac num_eval :=
  cbn -[Qplus Qminus Qmult Qdiv Qopp Qinv Qle_bool Qeq_bool Qlt_bool
        Qcompare Qpower Qabs Qfloor Qred inject_Z is_integer to_integer].






#[export] Instance Num_eq_equiv : Equivalence Num.eq.
Proof.
  split.
  - intros [q| | |]; simpl; auto. reflexivity.
  - intros [a| | |] [b| | |]; simpl; auto. intros H. symmetry. exact H.
  - intros [a| | |] [b| | |] [c| | |]; simpl; auto; try contradiction.
    intros H1 H2. rewrite H1. exact H2.
Qed.

Lemma fin_div (a b : Q) : ~ b == 0 -> Fin a / Fin b = Fin (a / b).
Proof.
  intros H. unfold Num.div. apply Qeq_bool_false in H. rewrite H. reflexivity.
Qed.


(* ===================================================================== *)
(** * InflationAdjuster: properties *)
(* ===================================================================== *)

(** The published default household income: 61984 of 2022 carried to 2025. *)
Example default_household_income :
  _adjustForInflation (Fin 61984) 2022 2025 INFLATION_RATES ≈ Fin 68941.
Proof. vm_compute. reflexivity. Qed.




(* ===================================================================== *)
(** * TaxConverter: properties *)
(* ===================================================================== *)

(** C7: the table of [_convertNetToGross] has the brackets of
    [_calculateNetIncome] ([0,18200)@0%, [18200,45000)@16%,
    [45000,135000)@30%, [135000,190000)@37%, [190000,oo)@45%), and in each of
    its entries [Cprev] is the tax [_calculateNetIncome] takes from a gross
    income equal to the entry's lower bound. *)
Theorem bracket_tables_consistent :
  map bracket NetToGross.BRACKETS = GrossToNet.BRACKETS /\
  Forall (fun b : BracketC =>
            exists net : num,
              _calculateNetIncome (lower b) = Ok net /\
              Cprev b ≈ lower b - net)
         NetToGross.BRACKETS.
Proof.
  split; [reflexivity |].
  repeat constructor; eexists; split; vm_compute; reflexivity.
Qed.

(** Both conversions return on every finite argument. *)
Lemma calculateNetIncome_finite (q : Q) :
  exists net : num, _calculateNetIncome (Fin q) = Ok net.
Proof.
  unfold _calculateNetIncome. num_eval.
  destruct (Qlt_bool q 0); eexists; reflexivity.
Qed.

Lemma convertNetToGross_finite (q : Q) :
  exists gross : num, _convertNetToGross (Fin q) = Ok gross.
Proof.
  unfold _convertNetToGross. num_eval.
  destruct (Qlt_bool q 0); [eexists; reflexivity |].
  destruct (Qle_bool q 18200); [eexists; reflexivity |].
  match goal with
  | |- context [match ?s with Some _ => _ | None => _ end] => destruct s
  end; eexists; reflexivity.
Qed.







(** Sample values of the specification. *)
Example grossToNet_samples :
  (exists net, _calculateNetIncome (Fin 0) = Ok (Fin net) /\ net == 0) /\
  (exists net, _calculateNetIncome (Fin 18200) = Ok (Fin net) /\ net == 18200) /\
  _convertNetToGross (Fin 0) = Ok (Fin 0) /\
  _convertNetToGross (Fin (-5)) = Ok (Fin 0) /\
  _calculateNetIncome (Fin (-5)) = Ok (Fin 0).
Proof.
  repeat split; eexists; (split; [vm_compute; reflexivity | reflexivity]).
Qed.

(** ** The conversions on binary64 numbers *)

(** The tax [_calculateNetIncome] takes at each lower bound is [Cprev], bit
    for bit. *)
Example binary64_tables_consistent :
  forallb (fun b =>
             match Binary64._calculateNetIncome (Binary64.lower b) with
             | Ok net =>
                 (Binary64.lower b - net =? Binary64.Cprev b)%float
             | Throw _ => false
             end)
          Binary64.BRACKETS = true.
Proof. vm_compute. reflexivity. Qed.

(** The round trip stays within [1e-6] of the gross income on the numbers
    next to each bracket boundary, on the default income and on the largest
    numbers there are. *)
Example binary64_round_trip_samples :
  forallb Binary64.round_trip_ok
    (Binary64.downwards 8 18200 ++ Binary64.upwards 8 18200 ++
     Binary64.downwards 8 45000 ++ Binary64.upwards 8 45000 ++
     Binary64.downwards 8 135000 ++ Binary64.upwards 8 135000 ++
     Binary64.downwards 8 190000 ++ Binary64.upwards 8 190000 ++
     Binary64.downwards 8 Binary64.MAX_VALUE ++
     [0; 0x1p-1074; 1; 68941; 100000; 1e9; 1e17; 1e300; 1e308])%float
  = true.
Proof. vm_compute. reflexivity. Qed.

(** At the net income of a gross of 190000 rounding leaves the loop without
    a bracket: the fourth candidate is 190000, not below its upper bound, the
    fifth is 189999.99999999997, below its lower bound.  The fallback after
    the loop returns that fifth candidate. *)
Example binary64_fallback_reached :
  Binary64.search 5 138362 1 (tail Binary64.BRACKETS) = None /\
  Binary64._convertNetToGross 138362 = Ok 189999.99999999997%float.
Proof. split; vm_compute; reflexivity. Qed.

(* ===================================================================== *)
(** * MortgageCalculator: properties *)
(* ===================================================================== *)




(** C6: a principal [<= 0] gives [{payment: 0, interest: 0}] whatever the
    rate, the term and the repayment type; a principal [> 0] at a rate of
    exactly 0 gives the straight-line payment [principal / (termYears * 12)]
    with interest 0; so [computePayment(100000, 0, 30, 'PI').payment] is
    [100000 / 360]. *)
Theorem mortgage_edge_cases (pow_frac : Q -> Q -> num) :
  (forall (principal rate term : num) (type : string),
      Num.le principal (Fin 0) ->
      _calculateMortgage pow_frac principal rate term type
      = mkMortgage (Fin 0) (Fin 0)) /\
  (forall (principal rate term : num) (type : string),
      Num.lt (Fin 0) principal -> (rate === Fin 0) = true ->
      _calculateMortgage pow_frac principal rate term type
      = mkMortgage (principal / (term * Fin 12)) (Fin 0)) /\
  payment (_calculateMortgage pow_frac (Fin 100000) (Fin 0) (Fin 30) "PI")
  ≈ Fin (100000 / 360).
Proof.
  split; [| split].
  - intros principal rate term type H. unfold _calculateMortgage.
    unfold Num.le in H. rewrite H. reflexivity.
  - intros principal rate term type Hpos Hrate. unfold _calculateMortgage.
    rewrite Hrate.
    destruct (principal <=? Fin 0) eqn:E; [| reflexivity].
    exfalso. unfold Num.lt in Hpos.
    destruct principal; simpl in *; try discriminate. qprops. lra.
  - vm_compute. reflexivity.
Qed.

Lemma mortgage_edge_cases_witness :
  _calculateMortgage (fun _ _ => NaN) (Fin (-250)) (Fin 6.5) (Fin 30) "PI"
  = mkMortgage (Fin 0) (Fin 0) /\
  _calculateMortgage (fun _ _ => NaN) (Fin 100000) (Fin 0) (Fin 30) "IO"
  = mkMortgage (Fin 100000 / (Fin 30 * Fin 12)) (Fin 0).
Proof.
  split.
  - apply (proj1 (mortgage_edge_cases (fun _ _ => NaN))). reflexivity.
  - apply (proj1 (proj2 (mortgage_edge_cases (fun _ _ => NaN)))); reflexivity.
Defined.




(* ===================================================================== *)
(** * ColorClassifier: properties *)
(* ===================================================================== *)

Lemma negative_leftover_test (l : option num) :
  negative_leftover l <->
  match l with Some leftover => leftover <? Fin 0 | None => false end = true.
Proof.
  unfold negative_leftover, Num.lt. split.
  - intros (x & -> & H). exact H.
  - destruct l as [x |]; [| discriminate]. intros H. exists x. auto.
Qed.

Lemma no_signal_test (x : num) :
  no_signal (Some x) <-> Num.isNaN x || (x === Fin 0) = true.
Proof.
  unfold no_signal. split.
  - intros [H | [H | (q & H & Hq)]]; [discriminate | |].
    + injection H as ->. reflexivity.
    + injection H as ->. simpl. apply Qeq_bool_iff. exact Hq.
  - destruct x as [q | | |]; simpl; try discriminate.
    + intros H. apply Qeq_bool_iff in H. right. right. exists q. auto.
    + intros _. right. left. reflexivity.
Qed.

(** A percentage under a threshold is under every larger threshold. *)
Lemma leb_threshold (x : num) (a b : Q) :
  a <= b -> (x <=? Fin a) = true -> (x <=? Fin b) = true.
Proof.
  intros Hab. destruct x as [q | | |]; simpl; auto.
  intros H. qprops. apply Qle_bool_iff. lra.
Qed.

(** Under [H : (x <=? b) = false] the test [x <=? a] with [a <= b] fails. *)
Ltac above_threshold H a :=
  match type of H with
  | (?x <=? Fin ?b) = false =>
      let E := fresh "E" in
      destruct (x <=? Fin a) eqn:E;
      [ exfalso; apply (leb_threshold x a b) in E;
        [ rewrite H in E; discriminate | lra ]
      | ]
  end.

Lemma getColor_sound (p l : option num) (b : Bucket) :
  Classify p l b -> _getColor p l = bucket_color b.
Proof.
  intros H. unfold _getColor.
  destruct H as [p l Hn | p l Hn Hs | p l x Hn -> Hs H20
                | p l x Hn -> Hs H20 H30 | p l x Hn -> Hs H30 H40
                | p l x Hn -> Hs H40 H50 | p l x Hn -> Hs H50];
    rewrite negative_leftover_test in Hn;
    try (apply not_true_is_false in Hn); rewrite Hn; try reflexivity.
  1:{ destruct p as [x |]; [| reflexivity].
      apply no_signal_test in Hs. rewrite Hs. reflexivity. }
  all: rewrite no_signal_test in Hs; apply not_true_is_false in Hs; rewrite Hs.
  all: unfold Num.le in *.
  all: repeat match goal with
       | H : ~ (_ <=? _) = true |- _ => apply not_true_is_false in H
       end.
  - rewrite H20. reflexivity.
  - rewrite H20, H30. reflexivity.
  - above_threshold H30 20. rewrite H30, H40. reflexivity.
  - above_threshold H40 20. above_threshold H40 30.
    rewrite H40, H50. reflexivity.
  - above_threshold H50 20. above_threshold H50 30. above_threshold H50 40.
    rewrite H50. reflexivity.
Qed.

Lemma Classify_total (p l : option num) : exists b : Bucket, Classify p l b.
Proof.
  destruct (match l with Some leftover => leftover <? Fin 0 | None => false end)
    eqn:El.
  { exists Critical. constructor. apply negative_leftover_test. exact El. }
  assert (Hn : ~ negative_leftover l).
  { rewrite negative_leftover_test, El. discriminate. }
  destruct p as [x |].
  2:{ exists NoData. constructor; [exact Hn | left; reflexivity]. }
  destruct (Num.isNaN x || (x === Fin 0)) eqn:Es.
  { exists NoData. constructor; [exact Hn | apply no_signal_test; exact Es]. }
  assert (Hs : ~ no_signal (Some x)).
  { rewrite no_signal_test, Es. discriminate. }
  destruct (x <=? Fin 20) eqn:E20.
  { exists VeryAffordable. eapply classify_very; eauto. }
  destruct (x <=? Fin 30) eqn:E30.
  { exists Affordable. eapply classify_affordable; eauto. unfold Num.le. congruence. }
  destruct (x <=? Fin 40) eqn:E40.
  { exists Moderate. eapply classify_moderate; eauto. unfold Num.le. congruence. }
  destruct (x <=? Fin 50) eqn:E50.
  { exists High. eapply classify_high; eauto. unfold Num.le. congruence. }
  exists Severe. eapply classify_severe; eauto. unfold Num.le. congruence.
Qed.

(** C4: [_getColor] follows the priority order and the thresholds.  Whatever
    rule of the classification applies to a percentage and a leftover,
    [_getColor] returns the colour of that rule's bucket (a non-null negative
    leftover is Critical whatever the percentage; otherwise a null, [NaN] or
    zero percentage is NoData; otherwise [<= 20] VeryAffordable, [<= 30]
    Affordable, [<= 40] Moderate, [<= 50] High, above that Severe); some rule
    always applies; [classify(25, -10)] is Critical and [classify(0, null)]
    is NoData. *)
Theorem getColor_classifies :
  (forall (p l : option num) (b : Bucket),
      Classify p l b -> _getColor p l = bucket_color b) /\
  (forall p l : option num, exists b : Bucket, Classify p l b) /\
  _getColor (Some (Fin 25)) (Some (Fin (-10))) = bucket_color Critical /\
  _getColor (Some (Fin 0)) None = bucket_color NoData.
Proof.
  split; [exact getColor_sound |].
  split; [exact Classify_total |].
  split; reflexivity.
Qed.

Lemma getColor_classifies_witness :
  Classify (Some (Fin 25)) (Some (Fin (-10))) Critical /\
  _getColor (Some (Fin 25)) (Some (Fin (-10))) = bucket_color Critical.
Proof.
  assert (H : Classify (Some (Fin 25)) (Some (Fin (-10))) Critical).
  { apply classify_critical. exists (Fin (-10)). split; reflexivity. }
  split; [exact H |].
  exact (proj1 getColor_classifies _ _ _ H).
Defined.

(* ===================================================================== *)
(** * AffordabilityEngine: properties *)
(* ===================================================================== *)

Section EngineFacts.

Variable pow_frac : Q -> Q -> num.
Variables (dom : Dom) (this : App) (userSettings : UserSettings).

(** The percentage is the quotient of the cost by the weekly gross income,
    except on the path that leaves both at their initial 0. *)
Lemma housing_of_percentage (data : PostcodeRecord) :
  let h := housing_of pow_frac dom this userSettings data in
  affordabilityPercentage h
  = weeklyHousingCost h / weeklyGrossIncome userSettings * Fin 100 \/
  (weeklyHousingCost h = Fin 0 /\ affordabilityPercentage h = Fin 0).
Proof.
  unfold housing_of.
  destruct (if String.eqb (housingType this) "rent" then _ else None).
  - left. reflexivity.
  - destruct (_ && _); [left | right; split]; reflexivity.
Qed.

Lemma update_record_cost (data : PostcodeRecord) :
  let h := housing_of pow_frac dom this userSettings data in
  let d := update_record pow_frac dom this userSettings data in
  weekly_housing_cost d = Some (weeklyHousingCost h) /\
  affordability_percentage d = Some (affordabilityPercentage h) /\
  is_affordable d = Some (affordabilityPercentage h <=? Fin 30) /\
  weekly_money_leftover d
  = (if weeklyHousingCost h >? Fin 0
     then Some (weeklyNetIncome userSettings - weeklyLivingCosts userSettings
                - weeklyHousingCost h)
     else None).
Proof. repeat split. Qed.

(** The pass keeps the columns of the data file. *)
Lemma update_record_raw (data : PostcodeRecord) :
  raw_fields (update_record pow_frac dom this userSettings data)
  = raw_fields data.
Proof. reflexivity. Qed.

(** What a row holds in the fields assigned on every path depends on the
    columns of the data file and on the settings only. *)
Lemma update_record_assigned (d1 d2 : PostcodeRecord) :
  raw_fields d1 = raw_fields d2 ->
  assigned_fields (update_record pow_frac dom this userSettings d1)
  = assigned_fields (update_record pow_frac dom this userSettings d2).
Proof.
  destruct d1, d2. unfold raw_fields. simpl. intros H.
  injection H as -> -> -> -> -> ->. reflexivity.
Qed.

(** The two other fields keep what the row held before, unless the buy
    branch is taken. *)
Lemma update_record_branch (data : PostcodeRecord) :
  written (housing_of pow_frac dom this userSettings data) = None ->
  branch_fields (update_record pow_frac dom this userSettings data)
  = branch_fields data.
Proof.
  intros H. unfold branch_fields, update_record. simpl. rewrite H. reflexivity.
Qed.

(** The local variables of a turn depend on the columns of the data file. *)
Lemma housing_of_raw (d1 d2 : PostcodeRecord) :
  raw_fields d1 = raw_fields d2 ->
  housing_of pow_frac dom this userSettings d1
  = housing_of pow_frac dom this userSettings d2.
Proof.
  destruct d1, d2. unfold raw_fields. simpl. intros H.
  injection H as -> -> -> -> -> ->. reflexivity.
Qed.

Lemma update_record_branch_written (data : PostcodeRecord) (w : num * num) :
  written (housing_of pow_frac dom this userSettings data) = Some w ->
  branch_fields (update_record pow_frac dom this userSettings data)
  = [Some (fst w); Some (snd w)].
Proof.
  intros H. unfold branch_fields, update_record. simpl. rewrite H. reflexivity.
Qed.

End EngineFacts.

(** A positive cost over a weekly gross income of 0 is [Infinity] percent. *)
Lemma percentage_over_zero (cost income : num) :
  Num.lt (Fin 0) cost -> income ≈ Fin 0 -> cost / income * Fin 100 = PInf.
Proof.
  unfold Num.lt. intros Hc Hi.
  destruct income as [z | | |]; simpl in Hi; try contradiction.
  destruct cost as [c | | |]; simpl in Hc; try discriminate; qprops.
  - unfold Num.div. rewrite (proj2 (Qeq_bool_iff z 0) Hi).
    unfold Num.inf_signed.
    assert (Hgt : (c ?= 0) = Gt) by (apply Qgt_alt; exact Hc).
    rewrite Hgt. reflexivity.
  - unfold Num.div.
    assert (Hz : Qlt_bool z 0 = false) by (apply Qlt_bool_false; lra).
    rewrite Hz. reflexivity.
Qed.

(** C2, as stated, fails.  With a net income of 0 the weekly gross income is
    0; a row with a weekly rent of 450 then gets a percentage of [Infinity],
    which is compared with 30 for [is_affordable] and reaches [_getColor],
    where the row is coloured black (negative leftover), not "no data". *)
Lemma zero_income_counterexample :
  _getUserSettings (sample_dom (Fin 0)) = Ok zero_income_settings /\
  weeklyGrossIncome zero_income_settings ≈ Fin 0 /\
  (let d := update_record no_pow (sample_dom (Fin 0))
              (sample_app "rent" "PI" (sample_record (Some (Fin 450)) None))
              zero_income_settings (sample_record (Some (Fin 450)) None) in
   affordability_percentage d = Some PInf /\
   is_affordable d = Some (PInf <=? Fin 30) /\
   color_of d = bucket_color Critical /\
   color_of d <> bucket_color NoData).
Proof.
  split; [reflexivity |]. split; [reflexivity |].
  repeat split. vm_compute. discriminate.
Qed.

(** C2 (amended): there is no guard on a weekly gross income of 0, and the
    pass does not fail on it.  A row whose weekly housing cost is positive
    gets the percentage [Infinity]; [is_affordable] is false for it and its
    colour is Critical (negative leftover) or Severe, never NoData.  A row
    whose weekly housing cost is 0 is coloured NoData. *)
Theorem zero_income_no_guard (pow_frac : Q -> Q -> num) (dom : Dom)
    (this : App) (userSettings : UserSettings) (data : PostcodeRecord) :
  _getUserSettings dom = Ok userSettings ->
  weeklyGrossIncome userSettings ≈ Fin 0 ->
  let d := update_record pow_frac dom this userSettings data in
  completes (_updateAllAffordability pow_frac dom this) /\
  (forall cost : num,
      weekly_housing_cost d = Some cost -> Num.lt (Fin 0) cost ->
      affordability_percentage d = Some PInf /\
      is_affordable d = Some false /\
      (color_of d = bucket_color Critical \/
       color_of d = bucket_color Severe)) /\
  (forall cost : num,
      weekly_housing_cost d = Some cost -> cost ≈ Fin 0 ->
      color_of d = bucket_color NoData).
Proof.
  intros Hsettings Hzero d.
  destruct (update_record_cost pow_frac dom this userSettings data)
    as (Hcost & Hpct & Haff & Hleft).
  fold d in Hcost, Hpct, Haff, Hleft.
  pose proof (housing_of_percentage pow_frac dom this userSettings data) as Hh.
  cbv zeta in Hh.
  set (h := housing_of pow_frac dom this userSettings data) in *.
  split; [| split].
  - unfold _updateAllAffordability. rewrite Hsettings. exact I.
  - intros cost Hc Hpos. rewrite Hcost in Hc. injection Hc as <-.
    assert (Hinf : affordabilityPercentage h = PInf).
    { destruct Hh as [Hq | [H0 _]].
      - rewrite Hq. apply percentage_over_zero; assumption.
      - rewrite H0 in Hpos. discriminate. }
    unfold color_of. rewrite Hpct, Haff, Hleft, Hinf.
    split; [reflexivity |]. split; [reflexivity |].
    unfold Num.lt in Hpos. unfold Num.gtb. rewrite Hpos. unfold _getColor.
    destruct (_ <? Fin 0); [left | right]; reflexivity.
  - intros cost Hc Hnull. rewrite Hcost in Hc. injection Hc as <-.
    unfold color_of. rewrite Hpct, Hleft.
    destruct (weeklyHousingCost h) as [c | | |] eqn:Ec;
      simpl in Hnull; try contradiction.
    assert (Hgt : (Fin c >? Fin 0) = false).
    { apply Qlt_bool_false. lra. }
    rewrite Hgt.
    destruct Hh as [Hq | [_ ->]]; [| reflexivity].
    rewrite Hq.
    destruct (weeklyGrossIncome userSettings) as [z | | |];
      simpl in Hzero; try contradiction.
    unfold Num.div. rewrite (proj2 (Qeq_bool_iff z 0) Hzero).
    unfold Num.inf_signed.
    assert (Heq : (c ?= 0) = Eq) by (apply Qeq_alt; exact Hnull).
    rewrite Heq. reflexivity.
Qed.

Lemma zero_income_no_guard_witness :
  let d := update_record no_pow (sample_dom (Fin 0))
             (sample_app "rent" "PI" (sample_record (Some (Fin 450)) None))
             zero_income_settings (sample_record (Some (Fin 450)) None) in
  completes (_updateAllAffordability no_pow (sample_dom (Fin 0))
               (sample_app "rent" "PI" (sample_record (Some (Fin 450)) None))) /\
  (forall cost : num,
      weekly_housing_cost d = Some cost -> Num.lt (Fin 0) cost ->
      affordability_percentage d = Some PInf /\
      is_affordable d = Some false /\
      (color_of d = bucket_color Critical \/
       color_of d = bucket_color Severe)) /\
  (forall cost : num,
      weekly_housing_cost d = Some cost -> cost ≈ Fin 0 ->
      color_of d = bucket_color NoData).
Proof.
  apply (zero_income_no_guard no_pow (sample_dom (Fin 0))
           (sample_app "rent" "PI" (sample_record (Some (Fin 450)) None))
           zero_income_settings (sample_record (Some (Fin 450)) None));
    reflexivity.
Defined.

(** The conversions raise on an argument that is not finite, and only then. *)
Lemma calculateNetIncome_raises (x : num) :
  (exists e : exn, _calculateNetIncome x = Throw e) <-> Num.isFinite x = false.
Proof.
  split.
  - intros [e He]. destruct x as [q | | |]; try reflexivity.
    destruct (calculateNetIncome_finite q) as [net Hnet]. congruence.
  - destruct x; try discriminate; intros _; eexists; reflexivity.
Qed.

Lemma convertNetToGross_raises (x : num) :
  (exists e : exn, _convertNetToGross x = Throw e) <-> Num.isFinite x = false.
Proof.
  split.
  - intros [e He]. destruct x as [q | | |]; try reflexivity.
    destruct (convertNetToGross_finite q) as [g Hg]. congruence.
  - destruct x; try discriminate; intros _; eexists; reflexivity.
Qed.

(** [parseFloat(...) || 0] turns [NaN] (and 0) into 0 and keeps the rest. *)
Lemma or_else_zero_finite (x : num) :
  infinite x = false -> Num.isFinite (Num.or_else x (Fin 0)) = true.
Proof.
  destruct x as [q | | |]; try discriminate; intros _.
  - unfold Num.or_else. destruct (Num.truthy (Fin q)); reflexivity.
  - reflexivity.
Qed.

Lemma getUserSettings_completes (dom : Dom) :
  infinite (annualIncome dom) = false -> completes (_getUserSettings dom).
Proof.
  intros H. apply or_else_zero_finite in H. unfold _getUserSettings.
  destruct (Num.or_else (annualIncome dom) (Fin 0)) as [q | | |];
    try discriminate.
  destruct (convertNetToGross_finite q) as [g ->]. exact I.
Qed.

(** C8, as stated, fails.  An income control holding the text "Infinity"
    parses to [Infinity]; [|| 0] replaces [NaN] and 0 only and lets it
    through; [_convertNetToGross] raises, nothing catches the error and the
    whole pass ends with it. *)
Lemma infinite_income_counterexample :
  Num.or_else PInf (Fin 0) = PInf /\
  _updateAllAffordability no_pow (sample_dom PInf)
    (sample_app "rent" "PI" sample_row)
  = Throw (TypeError "netIncome must be a finite number") /\
  ~ completes (_updateAllAffordability no_pow (sample_dom PInf)
                 (sample_app "rent" "PI" sample_row)).
Proof.
  split; [reflexivity |]. split; [reflexivity |]. intros H. exact H.
Qed.

(** C8 (amended): [_calculateNetIncome] and [_convertNetToGross] raise
    exactly when their argument is not finite; [_updateAllAffordability]
    completes without that error whenever the income control parses to [NaN]
    (which [|| 0] turns into 0) or to a finite number. *)
Theorem conversion_errors (pow_frac : Q -> Q -> num) :
  (forall x : num,
      (exists e : exn, _calculateNetIncome x = Throw e)
      <-> Num.isFinite x = false) /\
  (forall x : num,
      (exists e : exn, _convertNetToGross x = Throw e)
      <-> Num.isFinite x = false) /\
  (forall (dom : Dom) (this : App),
      infinite (annualIncome dom) = false ->
      completes (_updateAllAffordability pow_frac dom this)).
Proof.
  split; [exact calculateNetIncome_raises |].
  split; [exact convertNetToGross_raises |].
  intros dom this H. apply getUserSettings_completes in H.
  unfold _updateAllAffordability.
  destruct (_getUserSettings dom); [exact I | contradiction].
Qed.

Lemma conversion_errors_witness :
  completes (_updateAllAffordability no_pow (sample_dom NaN)
               (sample_app "buy" "PI" sample_row)).
Proof.
  apply (proj2 (proj2 (conversion_errors no_pow))). reflexivity.
Defined.

(** A pass reads of the application object, besides the rows, the three
    mode settings only. *)
Lemma update_record_modes (pow_frac : Q -> Q -> num) (dom : Dom)
    (this1 this2 : App) (userSettings : UserSettings) (data : PostcodeRecord) :
  housingType this1 = housingType this2 ->
  depositType this1 = depositType this2 ->
  mortgageType this1 = mortgageType this2 ->
  update_record pow_frac dom this1 userSettings data
  = update_record pow_frac dom this2 userSettings data.
Proof.
  destruct this1, this2. simpl. intros -> -> ->. reflexivity.
Qed.

(** The row of a postcode after a pass is the loop body applied to it. *)
Lemma updateAll_row (pow_frac : Q -> Q -> num) (dom : Dom) (this : App)
    (userSettings : UserSettings) (postcode : string) :
  _getUserSettings dom = Ok userSettings ->
  row_after (_updateAllAffordability pow_frac dom this) postcode
  = update_record pow_frac dom this userSettings
      <$> (housingData this !! postcode).
Proof.
  intros H. unfold _updateAllAffordability. rewrite H. simpl.
  apply lookup_fmap.
Qed.

(** C3, as stated, fails.  Two passes in rent mode over the same data and
    the same settings, one on a row as loaded, one on the row as a pass in
    buy mode left it: the second keeps in [calculated_weekly_payment] and
    [calculated_weekly_interest] the values of the buy pass (800 a week),
    the first has nothing there. *)
Lemma stale_branch_fields_counterexample :
  let dom := sample_dom (Fin 61984) in
  row_after (_updateAllAffordability no_pow dom (sample_app "buy" "IO" sample_row))
    "2000" = Some visited_row /\
  raw_fields sample_row = raw_fields visited_row /\
  exists (d1 d2 : PostcodeRecord) (x : Q),
    row_after (_updateAllAffordability no_pow dom
                 (sample_app "rent" "IO" sample_row)) "2000" = Some d1 /\
    row_after (_updateAllAffordability no_pow dom
                 (sample_app "rent" "IO" visited_row)) "2000" = Some d2 /\
    branch_fields d1 = [None; None] /\
    branch_fields d2 = branch_fields visited_row /\
    calculated_weekly_payment d2 = Some (Fin x) /\ x == 800 /\
    branch_fields d1 <> branch_fields d2.
Proof.
  cbv zeta. split; [vm_compute; reflexivity |]. split; [reflexivity |].
  eexists. eexists. eexists.
  split; [vm_compute; reflexivity |].
  split; [vm_compute; reflexivity |].
  split; [vm_compute; reflexivity |].
  split; [vm_compute; reflexivity |].
  split; [vm_compute; reflexivity |].
  split; [vm_compute; reflexivity |].
  vm_compute. discriminate.
Qed.

(** C3 (amended): a pass is a full overwrite of the fields it assigns on
    every path.  For two application states with the same mode settings and,
    under a postcode, rows with the same columns of the data file, the rows
    after [_updateAllAffordability] agree on [weekly_housing_cost],
    [affordability_percentage], [is_affordable], [weekly_money_leftover] and
    the quartile payments, whatever the rows held before; they agree on
    [calculated_weekly_payment] and [calculated_weekly_interest] too when the
    pass takes the buy branch on the row, the only place that assigns them. *)
Theorem recompute_overwrites (pow_frac : Q -> Q -> num) (dom : Dom)
    (this1 this2 : App) (userSettings : UserSettings) (postcode : string)
    (d1 d2 : PostcodeRecord) :
  _getUserSettings dom = Ok userSettings ->
  housingType this1 = housingType this2 ->
  depositType this1 = depositType this2 ->
  mortgageType this1 = mortgageType this2 ->
  housingData this1 !! postcode = Some d1 ->
  housingData this2 !! postcode = Some d2 ->
  raw_fields d1 = raw_fields d2 ->
  exists u1 u2 : PostcodeRecord,
    row_after (_updateAllAffordability pow_frac dom this1) postcode = Some u1 /\
    row_after (_updateAllAffordability pow_frac dom this2) postcode = Some u2 /\
    raw_fields u1 = raw_fields d1 /\
    raw_fields u2 = raw_fields d2 /\
    assigned_fields u1 = assigned_fields u2 /\
    (written (housing_of pow_frac dom this1 userSettings d1) <> None ->
     branch_fields u1 = branch_fields u2).
Proof.
  intros Hs Hh Hd Hm H1 H2 Hraw.
  exists (update_record pow_frac dom this1 userSettings d1),
         (update_record pow_frac dom this2 userSettings d2).
  rewrite !(updateAll_row _ _ _ userSettings) by exact Hs.
  rewrite H1, H2. unfold fmap, option_fmap, option_map.
  rewrite <- (update_record_modes pow_frac dom this1 this2) by assumption.
  split; [reflexivity |]. split; [reflexivity |].
  split; [reflexivity |]. split; [reflexivity |].
  split; [apply update_record_assigned; exact Hraw |].
  intros Hw.
  destruct (written (housing_of pow_frac dom this1 userSettings d1))
    as [w |] eqn:Ew; [| contradiction].
  rewrite (update_record_branch_written _ _ _ _ d1 w Ew).
  rewrite (housing_of_raw _ _ _ _ d1 d2 Hraw) in Ew.
  rewrite (update_record_branch_written _ _ _ _ d2 w Ew).
  reflexivity.
Qed.

Lemma recompute_overwrites_witness :
  exists u1 u2 : PostcodeRecord,
    row_after (_updateAllAffordability no_pow (sample_dom (Fin 61984))
                 (sample_app "buy" "PI" sample_row)) "2000" = Some u1 /\
    row_after (_updateAllAffordability no_pow (sample_dom (Fin 61984))
                 (sample_app "buy" "PI" visited_row)) "2000" = Some u2 /\
    raw_fields u1 = raw_fields sample_row /\
    raw_fields u2 = raw_fields visited_row /\
    assigned_fields u1 = assigned_fields u2 /\
    (written (housing_of no_pow (sample_dom (Fin 61984))
                (sample_app "buy" "PI" sample_row) sample_settings sample_row)
     <> None ->
     branch_fields u1 = branch_fields u2).
Proof.
  apply (recompute_overwrites no_pow (sample_dom (Fin 61984))
           (sample_app "buy" "PI" sample_row)
           (sample_app "buy" "PI" visited_row)
           sample_settings "2000" sample_row visited_row);
    reflexivity.
Defined.

(* ===================================================================== *)
(** * Further properties: TaxConverter *)
(* ===================================================================== *)









Lemma or_else_positive (n d : Q) :
  0 < n -> Num.or_else (Fin n) (Fin d) = Fin n.
Proof.
  intros H. unfold Num.or_else, Num.truthy.
  assert (E : Qeq_bool n 0 = false) by (apply Qeq_bool_false; lra).
  rewrite E. reflexivity.
Qed.




(* ===================================================================== *)
(** * Further properties: InflationAdjuster *)
(* ===================================================================== *)

Lemma adjust_step_effective (s : gmap Z num) (y : Z) (v : num) :
  adjust_step s y v
  = match effective_rate s y with
    | Some rate => v * (Fin 1 + rate / Fin 100)
    | None => v
    end.
Proof.
  unfold adjust_step, effective_rate.
  destruct (s !! y) as [rate |]; [| reflexivity].
  destruct (Num.truthy rate); reflexivity.
Qed.

Lemma adjust_loop_ext (s1 s2 : gmap Z num) (turns : nat) :
  forall (year : Z) (v : num),
    (forall y : Z, (year <= y < year + Z.of_nat turns)%Z ->
                   effective_rate s1 y = effective_rate s2 y) ->
    adjust_loop s1 turns year v = adjust_loop s2 turns year v.
Proof.
  induction turns as [| n IH]; intros year v H; [reflexivity |].
  simpl. rewrite !adjust_step_effective, (H year) by lia.
  apply IH. intros y Hy. apply H. lia.
Qed.

(** X4: [_adjustForInflation] reads the series only at the years after
    [baseYear] up to [targetYear], and there an entry that is 0 or [NaN]
    counts like a missing one: two series with the same effective rate at
    each of those years give the same result, whatever they hold elsewhere. *)
Theorem adjust_reads_range_only (base : num) (baseYear targetYear : Z)
    (s1 s2 : gmap Z num) :
  (forall y : Z, (baseYear < y <= targetYear)%Z ->
                 effective_rate s1 y = effective_rate s2 y) ->
  _adjustForInflation base baseYear targetYear s1
  = _adjustForInflation base baseYear targetYear s2.
Proof.
  intros H. unfold _adjustForInflation. f_equal.
  apply adjust_loop_ext. intros y Hy. apply H. lia.
Qed.

Lemma adjust_reads_range_only_witness :
  _adjustForInflation (Fin 46) 2021 2024 INFLATION_RATES
  = _adjustForInflation (Fin 46) 2021 2024 revised_rates.
Proof.
  apply (adjust_reads_range_only (Fin 46) 2021 2024
           INFLATION_RATES revised_rates).
  intros y Hy.
  assert (Hc : y = 2022%Z \/ y = 2023%Z \/ y = 2024%Z) by lia.
  destruct Hc as [-> | [-> | ->]]; reflexivity.
Defined.




(* ===================================================================== *)
(** * Further properties: MortgageCalculator *)
(* ===================================================================== *)












(* ===================================================================== *)
(** * Further properties: AffordabilityEngine *)
(* ===================================================================== *)

(** X9: a deposit that covers the price leaves nothing to pay.  For a
    finite price [> 0], when the deposit is a percentage of at least 100, or
    an amount of at least the price, the mortgage the engine sets up has a
    payment and an interest of 0, whatever the rate, the term and the
    repayment type. *)
Theorem full_deposit_no_payment (pow_frac : Q -> Q -> num) (dom : Dom)
    (this : App) (price deposit : Q) :
  0 < price ->
  (if String.eqb (depositType this) "percent"
   then depositPercent dom = Fin deposit /\ 100 <= deposit
   else depositAmount dom = Fin deposit /\ price <= deposit) ->
  mortgage_for pow_frac dom this (Fin price) = mkMortgage (Fin 0) (Fin 0).
Proof.
  intros Hp H. unfold mortgage_for.
  assert (Hloan : forall x : Q, x <= 0 ->
            (Num.max (Fin 0) (Fin x) <=? Fin 0) = true).
  { intros x Hx. unfold Num.max. simpl.
    destruct (Qle_bool 0 x) eqn:E; simpl; apply Qle_bool_iff; lra. }
  destruct (String.eqb (depositType this) "percent");
    destruct H as [-> Hd]; rewrite (or_else_positive deposit) by lra.
  - rewrite fin_div by lra. unfold _calculateMortgage.
    change (Fin price - Fin price * Fin (deposit / 100))
      with (Fin (price + - (price * (deposit / 100)))).
    rewrite Hloan; [reflexivity |].
    assert (price <= price * (deposit / 100)); [| lra].
    assert (1 <= deposit / 100) by (apply Qle_shift_div_l; lra).
    nra.
  - unfold _calculateMortgage.
    change (Fin price - Fin deposit) with (Fin (price + - deposit)).
    rewrite Hloan; [reflexivity | lra].
Qed.

Lemma full_deposit_no_payment_witness :
  mortgage_for no_pow (sample_dom (Fin 61984))
    (mkApp ∅ "buy" "amount" "PI") (Fin 90000)
  = mkMortgage (Fin 0) (Fin 0).
Proof.
  apply (full_deposit_no_payment no_pow (sample_dom (Fin 61984))
           (mkApp ∅ "buy" "amount" "PI") 90000 100000); [lra |].
  split; [reflexivity | lra].
Defined.

Lemma update_record_idem (pow_frac : Q -> Q -> num) (dom : Dom) (this : App)
    (us : UserSettings) (d : PostcodeRecord) :
  update_record pow_frac dom this us (update_record pow_frac dom this us d)
  = update_record pow_frac dom this us d.
Proof.
  assert (Hh : housing_of pow_frac dom this us
                 (update_record pow_frac dom this us d)
               = housing_of pow_frac dom this us d).
  { apply housing_of_raw. apply update_record_raw. }
  destruct d. unfold update_record at 1. rewrite Hh.
  unfold update_record, _calculateQuartilePayments. simpl.
  destruct (written _); reflexivity.
Qed.

(** X10: a pass is idempotent.  Running [_updateAllAffordability] again on
    the state it produced, with the same form, gives that state again, the
    two buy-branch fields included. *)
Theorem recompute_idempotent (pow_frac : Q -> Q -> num) (dom : Dom)
    (this this' : App) :
  _updateAllAffordability pow_frac dom this = Ok this' ->
  _updateAllAffordability pow_frac dom this' = Ok this'.
Proof.
  unfold _updateAllAffordability.
  destruct (_getUserSettings dom) as [us | e]; simpl; [| discriminate].
  intros H. injection H as <-. simpl. f_equal. f_equal.
  rewrite <- map_fmap_compose. apply map_fmap_ext.
  intros pc d _. simpl.
  rewrite (update_record_modes pow_frac dom _ this) by reflexivity.
  apply update_record_idem.
Qed.

Lemma recompute_idempotent_witness :
  exists this' : App,
    _updateAllAffordability no_pow (sample_dom (Fin 61984))
      (sample_app "buy" "PI" sample_row) = Ok this' /\
    _updateAllAffordability no_pow (sample_dom (Fin 61984)) this' = Ok this'.
Proof.
  eexists. split; [reflexivity |].
  apply (recompute_idempotent no_pow (sample_dom (Fin 61984))
           (sample_app "buy" "PI" sample_row)).
  reflexivity.
Defined.

(** X11: a pass keeps the data.  After [_updateAllAffordability] the state
    has the same postcodes, every row has the columns of the data file it
    had before, and the three mode settings are unchanged. *)
Theorem recompute_preserves_data (pow_frac : Q -> Q -> num) (form : Dom)
    (this this' : App) :
  _updateAllAffordability pow_frac form this = Ok this' ->
  dom (housingData this') = dom (housingData this) /\
  (forall (postcode : string) (d' : PostcodeRecord),
      housingData this' !! postcode = Some d' ->
      exists d : PostcodeRecord,
        housingData this !! postcode = Some d /\
        raw_fields d' = raw_fields d) /\
  housingType this' = housingType this /\
  depositType this' = depositType this /\
  mortgageType this' = mortgageType this.
Proof.
  unfold _updateAllAffordability.
  destruct (_getUserSettings form) as [us | e]; simpl; [| discriminate].
  intros H. injection H as <-. simpl.
  split; [apply dom_fmap_L |].
  split; [| auto].
  intros pc d' H. rewrite lookup_fmap in H.
  destruct (housingData this !! pc) as [d |]; [| discriminate].
  injection H as <-. exists d. split; [reflexivity |].
  apply update_record_raw.
Qed.

Lemma recompute_preserves_data_witness :
  exists this' : App,
    _updateAllAffordability no_pow (sample_dom (Fin 61984))
      (sample_app "buy" "PI" sample_row) = Ok this' /\
    dom (housingData this')
    = dom (housingData (sample_app "buy" "PI" sample_row)) /\
    housingType this' = "buy"%string.
Proof.
  eexists. split; [reflexivity |].
  destruct (recompute_preserves_data no_pow (sample_dom (Fin 61984))
              (sample_app "buy" "PI" sample_row) _ eq_refl)
    as (Hdom & _ & Ht & _).
  split; [exact Hdom | exact Ht].
Defined.

Lemma getColor_affordable (p : num) (l : option num) :
  let color := _getColor (Some p) l in
  (color = bucket_color VeryAffordable \/ color = bucket_color Affordable ->
   (p <=? Fin 30) = true) /\
  (color = bucket_color Moderate \/ color = bucket_color High \/
   color = bucket_color Severe -> (p <=? Fin 30) = false).
Proof.
  cbv zeta. unfold _getColor.
  destruct (match l with Some leftover => leftover <? Fin 0 | None => false end).
  { split; intros H; repeat destruct H as [H | H]; discriminate. }
  destruct (Num.isNaN p || (p === Fin 0)).
  { split; intros H; repeat destruct H as [H | H]; discriminate. }
  destruct (p <=? Fin 20) eqn:E20.
  { split; intros H; repeat destruct H as [H | H]; try discriminate.
    all: apply (leb_threshold p 20 30); [lra | exact E20]. }
  destruct (p <=? Fin 30) eqn:E30.
  { split; intros H; repeat destruct H as [H | H];
      try discriminate; reflexivity. }
  destruct (p <=? Fin 40) eqn:E40.
  { split; intros H; repeat destruct H as [H | H];
      try discriminate; reflexivity. }
  destruct (p <=? Fin 50) eqn:E50.
  { split; intros H; repeat destruct H as [H | H];
      try discriminate; reflexivity. }
  split; intros H; repeat destruct H as [H | H]; try discriminate; reflexivity.
Qed.

(** X12: the colour of a row agrees with its flag.  After the loop body, a
    row coloured in one of the two greens has [is_affordable] true, and a
    row coloured yellow, orange or red has it false: the boundary between
    green and yellow is the 30 of [is_affordable]. *)
Theorem color_agrees_with_flag (pow_frac : Q -> Q -> num) (dom : Dom)
    (this : App) (us : UserSettings) (data : PostcodeRecord) :
  let d := update_record pow_frac dom this us data in
  (color_of d = bucket_color VeryAffordable \/
   color_of d = bucket_color Affordable -> is_affordable d = Some true) /\
  (color_of d = bucket_color Moderate \/ color_of d = bucket_color High \/
   color_of d = bucket_color Severe -> is_affordable d = Some false).
Proof.
  intros d.
  destruct (update_record_cost pow_frac dom this us data)
    as (_ & Hpct & Haff & _).
  fold d in Hpct, Haff. unfold color_of. rewrite Hpct, Haff.
  destruct (getColor_affordable
              (affordabilityPercentage (housing_of pow_frac dom this us data))
              (weekly_money_leftover d)) as [H1 H2].
  split; intros H; f_equal; auto.
Qed.

Lemma color_agrees_with_flag_witness :
  let d := update_record no_pow (sample_dom (Fin 61984))
             (sample_app "rent" "PI" sample_row) sample_settings sample_row in
  color_of d = bucket_color Moderate /\ is_affordable d = Some false.
Proof.
  cbv zeta.
  assert (H : color_of (update_record no_pow (sample_dom (Fin 61984))
                          (sample_app "rent" "PI" sample_row)
                          sample_settings sample_row)
              = bucket_color Moderate) by (vm_compute; reflexivity).
  split; [exact H |].
  apply (proj2 (color_agrees_with_flag no_pow (sample_dom (Fin 61984))
                  (sample_app "rent" "PI" sample_row)
                  sample_settings sample_row)).
  left. exact H.
Defined.

(** X13: in rent mode the result of a row does not depend on the mortgage.
    With the housing type 'rent', the same price point and the same weekly
    incomes and living costs, the weekly housing cost, the percentage,
    [is_affordable] and the leftover of a row are the same whatever the
    deposit, rate and term controls, the deposit and repayment types and
    the owner costs are, and the pass leaves the two buy-branch fields as
    they were. *)
Theorem rent_ignores_mortgage_controls (pf1 pf2 : Q -> Q -> num)
    (dom1 dom2 : Dom) (this1 this2 : App) (us1 us2 : UserSettings)
    (data : PostcodeRecord) :
  housingType this1 = "rent"%string -> housingType this2 = "rent"%string ->
  pricePoint dom1 = pricePoint dom2 ->
  weeklyNetIncome us1 = weeklyNetIncome us2 ->
  weeklyGrossIncome us1 = weeklyGrossIncome us2 ->
  weeklyLivingCosts us1 = weeklyLivingCosts us2 ->
  let u1 := update_record pf1 dom1 this1 us1 data in
  let u2 := update_record pf2 dom2 this2 us2 data in
  weekly_housing_cost u1 = weekly_housing_cost u2 /\
  affordability_percentage u1 = affordability_percentage u2 /\
  is_affordable u1 = is_affordable u2 /\
  weekly_money_leftover u1 = weekly_money_leftover u2 /\
  branch_fields u1 = branch_fields data.
Proof.
  intros H1 H2 Hp Hn Hg Hl u1 u2.
  assert (Hh : housing_of pf1 dom1 this1 us1 data
               = housing_of pf2 dom2 this2 us2 data /\
               written (housing_of pf1 dom1 this1 us1 data) = None).
  { unfold housing_of. rewrite H1, H2, Hp, Hg. simpl.
    destruct (positive_cell _); auto. }
  destruct Hh as [Hh Hw].
  destruct (update_record_cost pf1 dom1 this1 us1 data) as (C1 & P1 & A1 & L1).
  destruct (update_record_cost pf2 dom2 this2 us2 data) as (C2 & P2 & A2 & L2).
  fold u1 in C1, P1, A1, L1. fold u2 in C2, P2, A2, L2.
  rewrite C1, P1, A1, L1, C2, P2, A2, L2, Hh, Hn, Hl.
  repeat split. apply update_record_branch. exact Hw.
Qed.

Lemma rent_ignores_mortgage_controls_witness :
  let u1 := update_record no_pow (sample_dom (Fin 61984))
              (sample_app "rent" "PI" sample_row) sample_settings sample_row in
  let u2 := update_record no_pow (sample_dom (Fin 0))
              (sample_app "rent" "IO" sample_row) sample_settings sample_row in
  weekly_housing_cost u1 = weekly_housing_cost u2 /\
  affordability_percentage u1 = affordability_percentage u2 /\
  is_affordable u1 = is_affordable u2 /\
  weekly_money_leftover u1 = weekly_money_leftover u2 /\
  branch_fields u1 = branch_fields sample_row.
Proof.
  apply (rent_ignores_mortgage_controls no_pow no_pow
           (sample_dom (Fin 61984)) (sample_dom (Fin 0))
           (sample_app "rent" "PI" sample_row)
           (sample_app "rent" "IO" sample_row)
           sample_settings sample_settings sample_row); reflexivity.
Defined.









Lemma gtb_truthy (n : num) : (n >? Fin 0) = true -> Num.truthy n = true.
Proof.
  destruct n as [q | | |]; simpl; try discriminate; auto.
  intros H. qprops. apply negb_true_iff. apply Qeq_bool_false. lra.
Qed.

Lemma positive_cell_shown (cell : option num) :
  positive_cell cell
  = match cell with
    | Some n => if n >? Fin 0 then Some n else None
    | None => None
    end.
Proof.
  destruct cell as [n |]; [| reflexivity]. unfold positive_cell.
  destruct (n >? Fin 0) eqn:E.
  - rewrite (gtb_truthy n E). reflexivity.
  - rewrite andb_false_r. reflexivity.
Qed.

(** X16: the popup shows what the pass stored.  For a row just recomputed
    with the form the popup reads, whenever the popup has a rent figure in
    rent mode, the money left after rent it shows is the row's
    [weekly_money_leftover] and the rent it shows is the row's
    [weekly_housing_cost]; whenever it has a total cost of buying in buy
    mode, that total is the row's [weekly_housing_cost] and, when the total
    is above 0, the money left it shows is the row's
    [weekly_money_leftover]. *)
Theorem popup_agrees_with_pass (pow_frac : Q -> Q -> num) (dom : Dom)
    (this : App) (us : UserSettings) (data : PostcodeRecord)
    (figures : PopupFigures) :
  _getUserSettings dom = Ok us ->
  let d := update_record pow_frac dom this us data in
  _createPopupContent pow_frac dom this d = Ok figures ->
  (housingType this = "rent"%string ->
   forall x : num,
     popup_money_after_rent figures = Some x ->
     weekly_money_leftover d = Some x /\
     weekly_housing_cost d = popup_rent_cost figures) /\
  (housingType this = "buy"%string ->
   forall t : num,
     popup_total_buy_cost figures = Some t ->
     weekly_housing_cost d = Some t /\
     (Num.lt (Fin 0) t ->
      weekly_money_leftover d = popup_money_after_buy figures)).
Proof.
  intros Hs d. unfold _createPopupContent. rewrite Hs. cbn [bind].
  match goal with
  | |- Ok ?f = _ -> _ => set (F := f)
  end.
  intros H. injection H as <-.
  destruct (update_record_cost pow_frac dom this us data) as (C & _ & _ & L).
  fold d in C, L. rewrite C, L. clear C L.
  unfold F, housing_of. clear F.
  cbn [popup_money_after_rent popup_rent_cost popup_total_buy_cost
       popup_money_after_buy].
  change (yearly_first_quartile_weekly_rent d)
    with (yearly_first_quartile_weekly_rent data).
  change (yearly_third_quartile_weekly_rent d)
    with (yearly_third_quartile_weekly_rent data).
  change (yearly_median_weekly_rent d) with (yearly_median_weekly_rent data).
  change (yearly_first_quartile_sales_000s d)
    with (yearly_first_quartile_sales_000s data).
  change (yearly_third_quartile_sales_000s d)
    with (yearly_third_quartile_sales_000s data).
  change (yearly_median_sales_price_000s d)
    with (yearly_median_sales_price_000s data).
  set (rent := if String.eqb (pricePoint dom) "q1" then _ else _).
  set (salesPrice :=
         if String.eqb (pricePoint dom) "q1" then thousands _ else _).
  split.
  - intros Hrent x. rewrite Hrent. change (String.eqb "rent" "rent") with true.
    cbv iota. rewrite positive_cell_shown.
    destruct rent as [n |]; [| discriminate].
    destruct (n >? Fin 0) eqn:E; [| discriminate].
    cbn [weeklyHousingCost]. rewrite E. intros H. injection H as <-.
    split; reflexivity.
  - intros Hbuy t. rewrite Hbuy.
    change (String.eqb "buy" "rent") with false.
    change (String.eqb "buy" "buy") with true. cbv iota.
    rewrite andb_true_l.
    destruct (Num.truthy salesPrice && (salesPrice >? Fin 0)).
    + cbn [weeklyHousingCost].
      destruct (_ >? Fin 0); [| discriminate].
      intros H. injection H as <-. split; [reflexivity |].
      intros Hpos. unfold Num.lt in Hpos. unfold Num.gtb at 1.
      rewrite Hpos. reflexivity.
    + change (Fin 0 >? Fin 0) with false. discriminate.
Qed.

Lemma popup_agrees_with_pass_witness :
  let d := update_record no_pow (sample_dom (Fin 61984))
             (sample_app "rent" "PI" sample_row) sample_settings sample_row in
  exists (figures : PopupFigures) (x : num),
    _createPopupContent no_pow (sample_dom (Fin 61984))
      (sample_app "rent" "PI" sample_row) d = Ok figures /\
    popup_money_after_rent figures = Some x /\
    weekly_money_leftover d = Some x /\
    weekly_housing_cost d = popup_rent_cost figures.
Proof.
  cbv zeta. eexists. eexists.
  split; [vm_compute; reflexivity |].
  split; [vm_compute; reflexivity |].
  apply (proj1 (popup_agrees_with_pass no_pow (sample_dom (Fin 61984))
                  (sample_app "rent" "PI" sample_row) sample_settings
                  sample_row _ eq_refl ltac:(vm_compute; reflexivity))
           eq_refl).
  vm_compute; reflexivity.
Defined.

Lemma zero_cost_grey (pow_frac : Q -> Q -> num) (dom : Dom) (this : App)
    (us : UserSettings) (data : PostcodeRecord) (c : Q) :
  let d := update_record pow_frac dom this us data in
  weekly_housing_cost d = Some (Fin c) -> c == 0 ->
  color_of d = bucket_color NoData.
Proof.
  intros d Hc H0.
  destruct (update_record_cost pow_frac dom this us data) as (C & P & _ & L).
  fold d in C, P, L. rewrite C in Hc. injection Hc as Hc.
  unfold color_of. rewrite P, L, Hc.
  assert (Hgt : (Fin c >? Fin 0) = false) by (apply Qlt_bool_false; lra).
  rewrite Hgt.
  destruct (housing_of_percentage pow_frac dom this us data) as [Hq | [_ Hq]];
    cbv zeta in Hq; rewrite Hq; [| reflexivity].
  rewrite Hc.
  destruct (weeklyGrossIncome us) as [w | | |]; try reflexivity.
  unfold Num.div. destruct (Qeq_bool w 0) eqn:Ew.
  - unfold Num.inf_signed.
    assert (Heq : (c ?= 0) = Eq) by (apply Qeq_alt; exact H0).
    rewrite Heq. reflexivity.
  - change (Fin (c / w) * Fin 100) with (Fin (c / w * 100)).
    unfold _getColor. cbn [Num.isNaN orb Num.eqb].
    assert (Hz : Qeq_bool (c / w * 100) 0 = true).
    { apply Qeq_bool_iff. rewrite H0. unfold Qdiv. ring. }
    rewrite Hz. reflexivity.
Qed.

(** X17: no cost, no colour.  After a pass, an area whose postcode has no
    row, or whose row has a weekly housing cost of 0 (no usable rent or
    price at the chosen price point), is filled with the grey of 'no data',
    whatever the income is, a zero or non-finite one included. *)
Theorem grey_without_cost (pow_frac : Q -> Q -> num) (form : Dom)
    (this this' : App) (postcode : string) :
  _updateAllAffordability pow_frac form this = Ok this' ->
  (housingData this' !! postcode = None \/
   exists (d : PostcodeRecord) (c : Q),
     housingData this' !! postcode = Some d /\
     weekly_housing_cost d = Some (Fin c) /\ c == 0) ->
  fillColor this' postcode = bucket_color NoData.
Proof.
  unfold _updateAllAffordability.
  destruct (_getUserSettings form) as [us | e]; cbn [bind]; [| discriminate].
  intros H. injection H as <-. unfold fillColor. cbn [housingData].
  rewrite lookup_fmap.
  destruct (housingData this !! postcode) as [d0 |] eqn:E;
    cbn [fmap option_fmap option_map].
  - intros [H | (d & c & Hd & Hc & H0)]; [discriminate |].
    injection Hd as <-.
    apply (zero_cost_grey pow_frac form this us d0 c Hc H0).
  - reflexivity.
Qed.

Lemma grey_without_cost_witness :
  exists this' : App,
    _updateAllAffordability no_pow (sample_dom (Fin 61984))
      (sample_app "rent" "PI" (sample_record None (Some (Fin 800))))
    = Ok this' /\
    fillColor this' "2000" = bucket_color NoData.
Proof.
  eexists. split; [reflexivity |].
  apply (grey_without_cost no_pow (sample_dom (Fin 61984))
           (sample_app "rent" "PI" (sample_record None (Some (Fin 800)))));
    [reflexivity |].
  right. eexists. exists 0. split; [vm_compute; reflexivity |].
  split; reflexivity.
Defined.

(* ===================================================================== *)
(** * Further properties: data loading and the colour scale *)
(* ===================================================================== *)

Section LoadingFacts.

Variable Number_toString : num -> string.

Lemma load_item_lookup (m : gmap string PostcodeRecord) (item : Item)
    (k : string) :
  load_item Number_toString m item !! k
  = if decide (String_of Number_toString (Postcode item) = k)
    then if usable_postcode k then Some (columns item) else m !! k
    else m !! k.
Proof.
  unfold load_item. case_decide as E.
  - subst k. destruct (usable_postcode _); [apply lookup_insert_eq | reflexivity].
  - destruct (usable_postcode _); [apply lookup_insert_ne; exact E | reflexivity].
Qed.

Lemma fold_load_lookup (items : list Item) :
  forall (m : gmap string PostcodeRecord) (k : string),
    fold_left (load_item Number_toString) items m !! k
    = match last (rows_for Number_toString k items) with
      | Some item => if usable_postcode k then Some (columns item) else m !! k
      | None => m !! k
      end.
Proof.
  induction items as [| item items IH]; intros m k; [reflexivity |].
  cbn [fold_left]. rewrite IH, load_item_lookup.
  unfold rows_for. rewrite filter_cons.
  fold (rows_for Number_toString k items).
  case_decide as E; [| reflexivity].
  rewrite last_cons.
  destruct (last (rows_for Number_toString k items));
    destruct (usable_postcode k); reflexivity.
Qed.

(** X18: the last row of a postcode wins.  After [_loadData], the row stored
    under a postcode other than the empty string and 'null' holds the columns
    of the last item of the file whose [String(item.Postcode)] is that
    postcode; a postcode no item has, and the two keys that are skipped,
    keep what the state had. *)
Theorem loadData_lookup (affordability : list Item) (this : App)
    (postcode : string) :
  housingData (_loadData Number_toString affordability this) !! postcode
  = match last (rows_for Number_toString postcode affordability) with
    | Some item =>
        if usable_postcode postcode then Some (columns item)
        else housingData this !! postcode
    | None => housingData this !! postcode
    end.
Proof.
  unfold _loadData. cbn [housingData]. apply fold_load_lookup.
Qed.

Lemma loadData_rows (affordability : list Item) (this : App)
    (postcode : string) (row : PostcodeRecord) :
  housingData (_loadData Number_toString affordability this) !! postcode
  = Some row ->
  housingData this !! postcode = Some row \/
  exists item : Item,
    item ∈ affordability /\
    String_of Number_toString (Postcode item) = postcode /\
    columns item = row.
Proof.
  unfold _loadData. cbn [housingData]. rewrite fold_load_lookup.
  destruct (last (rows_for Number_toString postcode affordability))
    as [item |] eqn:El; [| auto].
  destruct (usable_postcode postcode); [| auto].
  intros H. injection H as <-. right. exists item.
  apply last_Some_elem_of in El. unfold rows_for in El.
  apply list_elem_of_filter in El. destruct El as [Hk Hin]. auto.
Qed.

(** X19: loading adds no row under 'null' or the empty string, and invents
    none.  When the state has no row under these two keys before
    [_loadData], it has none after, whatever the file holds; and every row
    the state has after loading was there before or has the columns of an
    item of the file with that postcode. *)
Theorem loadData_skips_null (affordability : list Item) (this : App) :
  housingData this !! "null"%string = None ->
  housingData this !! ""%string = None ->
  housingData (_loadData Number_toString affordability this) !! "null"%string
  = None /\
  housingData (_loadData Number_toString affordability this) !! ""%string
  = None /\
  (forall (postcode : string) (row : PostcodeRecord),
      housingData (_loadData Number_toString affordability this) !! postcode
      = Some row ->
      housingData this !! postcode = Some row \/
      exists item : Item,
        item ∈ affordability /\
        String_of Number_toString (Postcode item) = postcode /\
        columns item = row).
Proof.
  intros Hn He. unfold _loadData at 1 2. cbn [housingData].
  rewrite !fold_load_lookup.
  change (usable_postcode "null") with false.
  change (usable_postcode "") with false.
  split; [destruct (last _); exact Hn |].
  split; [destruct (last _); exact He |].
  apply loadData_rows.
Qed.

End LoadingFacts.

Lemma loadData_skips_null_witness :
  housingData (_loadData sample_toString sample_items empty_app)
    !! "null"%string = None /\
  housingData (_loadData sample_toString sample_items empty_app)
    !! "2000"%string = Some sample_row.
Proof.
  split; [| vm_compute; reflexivity].
  apply (loadData_skips_null sample_toString sample_items empty_app);
    reflexivity.
Defined.

(** X20: the colour scale is monotone.  With the same leftover, a higher
    percentage never gets a colour earlier in the scale green, light green,
    yellow, orange, red than a lower one does (percentages finite and
    [> 0]). *)
Theorem color_scale_monotone (p q : Q) (l : option num) :
  0 < p -> p <= q ->
  (severity (_getColor (Some (Fin p)) l)
   <= severity (_getColor (Some (Fin q)) l))%nat.
Proof.
  intros Hp Hpq. unfold _getColor.
  destruct (match l with Some leftover => leftover <? Fin 0 | None => false end);
    [reflexivity |].
  cbn [Num.isNaN orb Num.eqb Num.leb].
  assert (Ep : Qeq_bool p 0 = false) by (apply Qeq_bool_false; lra).
  assert (Eq' : Qeq_bool q 0 = false) by (apply Qeq_bool_false; lra).
  rewrite Ep, Eq'.
  destruct (Qle_bool p 20) eqn:P20; destruct (Qle_bool q 20) eqn:Q20;
  destruct (Qle_bool p 30) eqn:P30; destruct (Qle_bool q 30) eqn:Q30;
  destruct (Qle_bool p 40) eqn:P40; destruct (Qle_bool q 40) eqn:Q40;
  destruct (Qle_bool p 50) eqn:P50; destruct (Qle_bool q 50) eqn:Q50;
  qprops; try (exfalso; lra); vm_compute; lia.
Qed.

Lemma color_scale_monotone_witness :
  (severity (_getColor (Some (Fin 25)) None)
   <= severity (_getColor (Some (Fin 45)) None))%nat.
Proof.
  apply (color_scale_monotone 25 45 None); lra.
Defined.
